(** * AutoPush: the config watcher and the commit-and-push cycle

    A shallow embedding of [AutoPush.py].  The module keeps four pieces of
    process-wide state ([config_last_modified], [jobs], the job list of the
    [schedule] library's default scheduler, and the credentials held by the
    two collaborators) and talks to the outside world through [os],
    [subprocess], [git_utils], [genai_utils] and [logging].

    Every answer of the outside world is supplied by an environment record,
    and every call made to it is recorded in a trace, so that statements such
    as "push is not attempted" are statements about the trace. *)

From Stdlib Require Import List String Ascii ZArith QArith Bool Lia Arith.
Import ListNotations.
Close Scope Q_scope.
Local Open Scope string_scope.
Local Open Scope list_scope.

(** ** Values read from [config.json] *)

(** The Python object that [json.load] builds.  [JObj] is a [dict]: the
    association list holds its items in insertion order, keys distinct.
    [JInt] is a Python [int], [JFloat] a finite [float]. *)
#[warnings="-register-all"]
Inductive json : Type :=
| JNull
| JBool (b : bool)
| JInt (n : Z)
| JFloat (q : Q)
| JStr (s : string)
| JArr (items : list json)
| JObj (fields : list (string * json)).

(** The exceptions the module can meet, all of them subclasses of
    [Exception].  [FileNotFoundError] and [JSONDecodeError] are the two that
    the source names in handlers of their own. *)
Inductive exn : Type :=
| FileNotFoundError
| JSONDecodeError
| CalledProcessError
| KeyError (key : string)
| TypeError
| AttributeError
| OtherError (what : string).

(** Python truthiness, as used by [if not config]. *)
Definition truthy (v : json) : bool :=
  match v with
  | JNull => false
  | JBool b => b
  | JInt n => negb (n =? 0)%Z
  | JFloat q => negb (Qeq_bool q 0%Q)
  | JStr s => negb (s =? "")
  | JArr items => match items with [] => false | _ => true end
  | JObj fields => match fields with [] => false | _ => true end
  end.

(** Truthiness of a value that is a [str] or [None]. *)
Definition truthy_text (t : option string) : bool :=
  match t with
  | None => false
  | Some s => negb (s =? "")
  end.

Fixpoint assoc (k : string) (fields : list (string * json)) : option json :=
  match fields with
  | [] => None
  | (k', v) :: rest => if k' =? k then Some v else assoc k rest
  end.

(** [needle in hay] on Python strings. *)
Fixpoint str_in (needle hay : string) : bool :=
  if String.prefix needle hay then true
  else match hay with
       | EmptyString => false
       | String _ rest => str_in needle rest
       end.

Fixpoint chars (s : string) : list json :=
  match s with
  | EmptyString => []
  | String c rest => JStr (String c EmptyString) :: chars rest
  end.

(** ** Scheduled jobs *)

(** What a job runs: the reload poll, or the [commit_and_push] closure of one
    project, which captures [folder_path] and [repo_name]. *)
Inductive callback : Type :=
| CheckConfigChanges
| CommitAndPush (folder_path repo_name : json).

(** A [schedule.Job].  [job_id] stands for the identity of the Python object:
    [Job] defines no [__eq__], so [list.remove] compares jobs by identity. *)
Record job : Type := mkJob {
  job_id : nat;
  job_interval : json;
  job_func : callback
}.

Definition is_project_job (j : job) : bool :=
  match job_func j with
  | CommitAndPush _ _ => true
  | CheckConfigChanges => false
  end.

Definition is_reload_job (j : job) : bool :=
  match job_func j with
  | CheckConfigChanges => true
  | CommitAndPush _ _ => false
  end.

(** ** Trace of observable actions *)

Inductive level : Type := INFO | WARNING | ERROR.

(** An interpolated value of a log line. *)
Inductive arg : Type :=
| AVal (v : json)
| AText (s : string)
| AExn (e : exn).

Inductive event : Type :=
| Log (lvl : level) (template : string) (args : list arg)
| GitInit (cwd : json)
| GitConfigPullRebase (cwd : json)
| GetRemoteUrl (repo_name : json)
| LsRemote (remote_url : string) (cwd : json)
| CreateGithubRepo (repo_name private : json)
| RemoteGetUrlOrigin (cwd : json)
| RemoteAddOrigin (remote_url : string) (cwd : json)
| GitAdd (cwd : json)
| GetGitDiff (cwd : json)
| GenerateCommitMessage (diff : string)
| GitCommit (cwd : json) (message : string)
| GitPull (cwd : json)
| GitPush (cwd : json)
| CancelJob (j : job)
| GetMTime (path : string)
| JsonLoad (path : string)
| GitConfigure (user token : json)
| GenaiConfigure (api_key : json).

Definition is_commit (e : event) : bool :=
  match e with GitCommit _ _ => true | _ => false end.
Definition is_pull (e : event) : bool :=
  match e with GitPull _ => true | _ => false end.
Definition is_push (e : event) : bool :=
  match e with GitPush _ => true | _ => false end.

(** ** Process-wide state *)

Record state : Type := mkState {
  config_last_modified : option Z;   (* None until the first observation *)
  jobs : list job;                   (* the module's own [jobs] list *)
  sched_jobs : list job;             (* [schedule.default_scheduler.jobs] *)
  next_id : nat;                     (* identities handed out so far *)
  config : option json;              (* the module's [config] global *)
  git_credentials : option (json * json);
  genai_api_key : option json;
  trace : list event                 (* oldest first *)
}.

Definition initial_state : state :=
  mkState None [] [] 0 None None None [].

Definition set_config_last_modified (t : Z) (s : state) : state :=
  mkState (Some t) (jobs s) (sched_jobs s) (next_id s) (config s)
          (git_credentials s) (genai_api_key s) (trace s).

Definition set_jobs (l : list job) (s : state) : state :=
  mkState (config_last_modified s) l (sched_jobs s) (next_id s) (config s)
          (git_credentials s) (genai_api_key s) (trace s).

Definition set_sched_jobs (l : list job) (s : state) : state :=
  mkState (config_last_modified s) (jobs s) l (next_id s) (config s)
          (git_credentials s) (genai_api_key s) (trace s).

Definition set_next_id (n : nat) (s : state) : state :=
  mkState (config_last_modified s) (jobs s) (sched_jobs s) n (config s)
          (git_credentials s) (genai_api_key s) (trace s).

Definition set_config (c : option json) (s : state) : state :=
  mkState (config_last_modified s) (jobs s) (sched_jobs s) (next_id s) c
          (git_credentials s) (genai_api_key s) (trace s).

(** Modelled from the spec: [git_utils.configure] and
    [genai_utils.configure] are not among the sources.  Each collaborator
    holds the credentials it was last configured with (sections 4.1 and 9);
    the two fields below are those credentials. *)
Definition set_git_credentials (c : json * json) (s : state) : state :=
  mkState (config_last_modified s) (jobs s) (sched_jobs s) (next_id s)
          (config s) (Some c) (genai_api_key s) (trace s).

Definition set_genai_api_key (k : json) (s : state) : state :=
  mkState (config_last_modified s) (jobs s) (sched_jobs s) (next_id s)
          (config s) (git_credentials s) (Some k) (trace s).

Definition add_event (e : event) (s : state) : state :=
  mkState (config_last_modified s) (jobs s) (sched_jobs s) (next_id s)
          (config s) (git_credentials s) (genai_api_key s) (trace s ++ [e]).

(** ** A state and exception monad

    A Python statement either completes with a value or raises; in both
    cases the mutations it made so far stay. *)

Inductive res (A : Type) : Type :=
| Done (a : A)
| Raised (e : exn).
Arguments Done {A} a.
Arguments Raised {A} e.

Definition M (A : Type) : Type := state -> res A * state.

Definition ret {A} (a : A) : M A := fun s => (Done a, s).

Definition bind {A B} (m : M A) (k : A -> M B) : M B :=
  fun s => match m s with
           | (Done a, s') => k a s'
           | (Raised e, s') => (Raised e, s')
           end.

Definition raise {A} (e : exn) : M A := fun s => (Raised e, s).

Definition try_except {A} (m : M A) (handler : exn -> M A) : M A :=
  fun s => match m s with
           | (Done a, s') => (Done a, s')
           | (Raised e, s') => handler e s'
           end.

Definition update (f : state -> state) : M unit := fun s => (Done tt, f s).
Definition read {A} (f : state -> A) : M A := fun s => (Done (f s), s).

Declare Scope py_scope.
Delimit Scope py_scope with py.
Notation "x <- m ;; k" := (bind m (fun x => k))
  (at level 61, m at next level, right associativity) : py_scope.
Notation "m ;; k" := (bind m (fun _ => k))
  (at level 61, right associativity) : py_scope.
Local Open Scope py_scope.

Definition emit (e : event) : M unit := update (add_event e).

Definition logging (lvl : level) (template : string) (args : list arg)
  : M unit := emit (Log lvl template args).

(** The final state of a computation, whatever its result. *)
Definition exec {A} (m : M A) (s : state) : state := snd (m s).

(** ** Answers of the outside world *)

(** An external call returns or raises. *)
Inductive outcome (A : Type) : Type :=
| Returns (a : A)
| Raises (e : exn).
Arguments Returns {A} a.
Arguments Raises {A} e.

(** Make an external call: record it, then return or raise as the
    environment says. *)
Definition call {A} (e : event) (o : outcome A) : M A :=
  emit e ;;
  match o with
  | Returns a => ret a
  | Raises x => raise x
  end.

(** ** Python operations on configuration values *)

(** [v[key]]: a [KeyError] on a dict without the key, a [TypeError] on
    anything that is not a dict (a string or list wants integer indices, the
    other values are not subscriptable). *)
Definition subscript (v : json) (key : string) : M json :=
  match v with
  | JObj fields =>
      match assoc key fields with
      | Some x => ret x
      | None => raise (KeyError key)
      end
  | _ => raise TypeError
  end.

Definition lookup_or (fields : list (string * json)) (key : string)
    (default : json) : json :=
  match assoc key fields with
  | Some x => x
  | None => default
  end.

(** [v.get(key, default)]: only a dict has [get]. *)
Definition dict_get (v : json) (key : string) (default : json) : M json :=
  match v with
  | JObj fields => ret (lookup_or fields key default)
  | _ => raise AttributeError
  end.

(** The items a [for] loop draws from [v]: the elements of a list, the keys
    of a dict, the characters of a string; other values are not iterable. *)
Definition items_of (v : json) : option (list json) :=
  match v with
  | JArr items => Some items
  | JObj fields => Some (map (fun kv => JStr (fst kv)) fields)
  | JStr s => Some (chars s)
  | _ => None
  end.

Definition iterate (v : json) : M (list json) :=
  match items_of v with
  | Some items => ret items
  | None => raise TypeError
  end.

(** [os.path.join(folder_path, ".git")] wants a path: of the values a
    configuration can hold, only a string. *)
Definition path_join_git (folder_path : json) : M unit :=
  match folder_path with
  | JStr _ => ret tt
  | _ => raise TypeError
  end.

(** ** The scheduling library *)

(** [schedule.every(interval).minutes.do(func)]: [do] computes the next run
    from the interval (raising there when the interval is no number), then
    appends the new job to the scheduler's list and returns it.  Whether the
    library accepts the interval is part of the environment. *)
Definition schedule_every_do (interval : json) (func : callback)
    (refusal : option exn) : M job :=
  match refusal with
  | Some e => raise e
  | None =>
      n <- read next_id ;;
      let j := mkJob n interval func in
      update (set_next_id (S n)) ;;
      update (fun s => set_sched_jobs (sched_jobs s ++ [j]) s) ;;
      ret j
  end.

(** [list.remove(job)]: drop the first element that is the given object;
    [cancel_job] swallows the [ValueError] of a job that is not there. *)
Fixpoint remove_job (j : job) (l : list job) : list job :=
  match l with
  | [] => []
  | x :: rest =>
      if Nat.eqb (job_id x) (job_id j) then rest else x :: remove_job j rest
  end.

Definition cancel_job (j : job) : M unit :=
  emit (CancelJob j) ;;
  update (fun s => set_sched_jobs (remove_job j (sched_jobs s)) s).

(** ** [commit_and_push] *)

Record cycle_env : Type := mkCycleEnv {
  git_add_r : outcome bool;
  get_git_diff_r : outcome (option string);
  generate_commit_message_r : outcome (option string);
  git_commit_r : outcome bool;
  git_pull_r : outcome bool;
  git_push_r : outcome bool
}.

Definition SYNTAX_ERROR : string := "SYNTAX_ERROR".
Definition auto_commit : string := "Auto commit".

(** Lines 81-83: the message the cycle goes on with. *)
Definition message_or_fallback (generated : option string) : string :=
  match generated with
  | Some m => if truthy_text generated then m else auto_commit
  | None => auto_commit
  end.

(** Lines 91-103, after the message was accepted. *)
Definition commit_pull_push (folder_path repo_name : json)
    (commit_message : string) (env : cycle_env) : M unit :=
  committed <- call (GitCommit folder_path commit_message) (git_commit_r env) ;;
  if negb committed then
    logging ERROR "Error al ejecutar 'git commit' en {folder_path}"
            [AVal folder_path]
  else
    pulled <- call (GitPull folder_path) (git_pull_r env) ;;
    if negb pulled then
      logging ERROR "Error al ejecutar 'git pull' en {folder_path}"
              [AVal folder_path]
    else
      logging INFO "Cambios bajados del repositorio {repo_name}"
              [AVal repo_name] ;;
      pushed <- call (GitPush folder_path) (git_push_r env) ;;
      if negb pushed then
        logging ERROR "Error al ejecutar 'git push' en {folder_path}"
                [AVal folder_path]
      else
        logging INFO "Cambios subidos al repositorio {repo_name}"
                [AVal repo_name].

(** Lines 73-105, the body of the [try]. *)
Definition commit_and_push_body (folder_path repo_name : json)
    (env : cycle_env) : M unit :=
  added <- call (GitAdd folder_path) (git_add_r env) ;;
  if negb added then
    logging ERROR "Error al ejecutar 'git add .' en {folder_path}"
            [AVal folder_path]
  else
    diff <- call (GetGitDiff folder_path) (get_git_diff_r env) ;;
    match diff with
    | Some d =>
        if truthy_text diff then
          generated <- call (GenerateCommitMessage d)
                            (generate_commit_message_r env) ;;
          (if negb (truthy_text generated) then
             logging WARNING "No se pudo generar un mensaje de commit." []
           else ret tt) ;;
          let commit_message := message_or_fallback generated in
          if str_in SYNTAX_ERROR commit_message then
            logging ERROR
              "Error de sintaxis detectado en el mensaje de commit." []
          else
            logging INFO "Commit message: {commit_message}"
                    [AText commit_message] ;;
            commit_pull_push folder_path repo_name commit_message env
        else
          logging INFO "No hay cambios para subir en {repo_name}"
                  [AVal repo_name]
    | None =>
        logging INFO "No hay cambios para subir en {repo_name}"
                [AVal repo_name]
    end.

Definition commit_and_push (folder_path repo_name : json) (env : cycle_env)
  : M unit :=
  try_except (commit_and_push_body folder_path repo_name env)
    (fun e =>
       logging ERROR "Error durante el commit y push en {repo_name}: {e}"
               [AVal repo_name; AExn e]).

(** ** [sync_project] *)

Record setup_env : Type := mkSetupEnv {
  has_git_dir : bool;                      (* os.path.exists(.../.git) *)
  git_init_r : outcome bool;
  git_config_pull_rebase_r : outcome bool;
  get_remote_url_r : outcome (option string);
  ls_remote_r : outcome unit;              (* check_output: raises on exit <> 0 *)
  create_github_repo_r : outcome bool;
  remote_get_url_origin_r : outcome unit;
  remote_add_origin_r : outcome bool;
  every_do_refusal : option exn
}.

(** Lines 36-44.  The result tells whether [sync_project] goes on ([false]
    stands for the [return] statements). *)
Definition init_repository (folder_path : json) (env : setup_env) : M bool :=
  path_join_git folder_path ;;
  if negb (has_git_dir env) then
    logging INFO "Inicializando repositorio Git en {folder_path}"
            [AVal folder_path] ;;
    inited <- call (GitInit folder_path) (git_init_r env) ;;
    if negb inited then
      logging ERROR
        "Error al inicializar el repositorio Git en {folder_path}"
        [AVal folder_path] ;;
      ret false
    else
      configured <- call (GitConfigPullRebase folder_path)
                         (git_config_pull_rebase_r env) ;;
      if negb configured then
        logging ERROR "Error al configurar pull.rebase en {folder_path}"
                [AVal folder_path] ;;
        ret false
      else ret true
  else ret true.

(** Lines 52-58: only [CalledProcessError] is handled; anything else the
    probe raises leaves [sync_project]. *)
Definition ensure_remote_repo (folder_path repo_name private : json)
    (remote_url : string) (env : setup_env) : M bool :=
  try_except
    (call (LsRemote remote_url folder_path) (ls_remote_r env) ;; ret true)
    (fun e =>
       match e with
       | CalledProcessError =>
           logging INFO
             "El repositorio remoto {remote_url} no existe. Creando..."
             [AText remote_url] ;;
           created <- call (CreateGithubRepo repo_name private)
                           (create_github_repo_r env) ;;
           if negb created then
             logging ERROR
               "Error al crear el repositorio en GitHub para {repo_name}"
               [AVal repo_name] ;;
             ret false
           else ret true
       | _ => raise e
       end).

(** Lines 61-67. *)
Definition ensure_origin (folder_path : json) (remote_url : string)
    (env : setup_env) : M bool :=
  try_except
    (call (RemoteGetUrlOrigin folder_path) (remote_get_url_origin_r env) ;;
     ret true)
    (fun e =>
       match e with
       | CalledProcessError =>
           logging INFO "Agregando remoto 'origin' a {remote_url}"
                   [AText remote_url] ;;
           added <- call (RemoteAddOrigin remote_url folder_path)
                         (remote_add_origin_r env) ;;
           if negb added then
             logging ERROR
               "Error al agregar el remoto 'origin' a {remote_url}"
               [AText remote_url] ;;
             ret false
           else ret true
       | _ => raise e
       end).

(** Lines 110-112. *)
Definition register_job (folder_path repo_name interval : json)
    (env : setup_env) : M unit :=
  j <- schedule_every_do interval (CommitAndPush folder_path repo_name)
                         (every_do_refusal env) ;;
  update (fun s => set_jobs (jobs s ++ [j]) s) ;;
  logging INFO "Tarea programada para {repo_name} cada {interval} minutos."
          [AVal repo_name; AVal interval].

(** Lines 36-112: the setup sequence, then the registration. *)
Definition setup_and_register (folder_path repo_name interval private : json)
    (env : setup_env) : M unit :=
  go <- init_repository folder_path env ;;
  if negb go then ret tt
  else
    remote_url <- call (GetRemoteUrl repo_name) (get_remote_url_r env) ;;
    match remote_url with
    | Some url =>
        if truthy_text remote_url then
          go <- ensure_remote_repo folder_path repo_name private url env ;;
          if negb go then ret tt
          else
            go <- ensure_origin folder_path url env ;;
            if negb go then ret tt
            else register_job folder_path repo_name interval env
        else logging ERROR "No se pudo obtener la URL remota." []
    | None => logging ERROR "No se pudo obtener la URL remota." []
    end.

Definition sync_project (project : json) (env : setup_env) : M unit :=
  folder_path <- subscript project "folder_path" ;;
  repo_name <- subscript project "repo_name" ;;
  interval <- subscript project "interval" ;;
  private <- dict_get project "private" (JBool false) ;;
  logging INFO "Sincronizando proyecto: {repo_name} en {folder_path}"
          [AVal repo_name; AVal folder_path] ;;
  setup_and_register folder_path repo_name interval private env.

(** ** [load_config] and [check_config_changes] *)

Definition config_file : string := "config.json".

Record poll_env : Type := mkPollEnv {
  getmtime_r : outcome Z;                  (* os.path.getmtime(config_file);
                                              a time, of which only the order
                                              is used *)
  json_load_r : outcome json;              (* open(...) and json.load(f) *)
  git_configure_r : outcome unit;
  genai_configure_r : outcome unit;
  setup_r : nat -> setup_env               (* the world at the i-th project *)
}.

Definition load_config (env : poll_env) : M (option json) :=
  try_except
    (c <- call (JsonLoad config_file) (json_load_r env) ;; ret (Some c))
    (fun e =>
       match e with
       | FileNotFoundError =>
           logging ERROR
             "Archivo de configuración no encontrado: {config_file}"
             [AText config_file] ;;
           ret None
       | JSONDecodeError =>
           logging ERROR "Error al decodificar el archivo JSON: {config_file}"
                   [AText config_file] ;;
           ret None
       | _ => raise e
       end).

(** [for job in jobs: schedule.cancel_job(job)] *)
Fixpoint cancel_each (l : list job) : M unit :=
  match l with
  | [] => ret tt
  | j :: rest => cancel_job j ;; cancel_each rest
  end.

(** [for project_config in projects: sync_project(project_config)], the
    [i]-th iteration meeting the world [setup_r env i]. *)
Fixpoint sync_each (projects : list json) (i : nat) (env : poll_env)
  : M unit :=
  match projects with
  | [] => ret tt
  | p :: rest => sync_project p (setup_r env i) ;; sync_each rest (S i) env
  end.

(** [current_last_modified > config_last_modified], or first observation. *)
Definition is_newer (current : Z) (last : option Z) : bool :=
  match last with
  | None => true
  | Some t => (t <? current)%Z
  end.

Definition reloaded_message : string :=
  "Configuración recargada y tareas reprogramadas.".

(** Lines 146-154, with a configuration that passed [if not config]. *)
Definition apply_config (c : json) (env : poll_env) : M unit :=
  user <- dict_get c "github_user" JNull ;;
  token <- dict_get c "github_token" JNull ;;
  call (GitConfigure user token) (git_configure_r env) ;;
  update (set_git_credentials (user, token)) ;;
  key <- dict_get c "google_api_key" JNull ;;
  call (GenaiConfigure key) (genai_configure_r env) ;;
  update (set_genai_api_key key) ;;
  projects <- dict_get c "projects" (JArr []) ;;
  items <- iterate projects ;;
  sync_each items 0 env ;;
  logging INFO reloaded_message [].

(** Lines 134-139: record the new time, cancel and forget every project
    job. *)
Definition clear_schedule (current : Z) : M unit :=
  logging INFO
    "Se detectaron cambios en el archivo de configuración. Recargando..." [] ;;
  update (set_config_last_modified current) ;;
  l <- read jobs ;;
  cancel_each l ;;
  update (set_jobs []).

Definition reload_failed : event :=
  Log ERROR
    "Error al recargar la configuración.  Usando la configuración anterior."
    [].

(** Lines 134-154, the branch taken when a change is detected. *)
Definition reload (current : Z) (env : poll_env) : M unit :=
  clear_schedule current ;;
  c <- load_config env ;;
  update (set_config c) ;;
  match c with
  | Some v => if truthy v then apply_config v env else emit reload_failed
  | None => emit reload_failed
  end.

Definition check_config_changes (env : poll_env) : M unit :=
  try_except
    (current <- call (GetMTime config_file) (getmtime_r env) ;;
     last <- read config_last_modified ;;
     if is_newer current last then reload current env else ret tt)
    (fun e =>
       match e with
       | FileNotFoundError =>
           logging ERROR
             "Archivo de configuración no encontrado: {config_file}"
             [AText config_file]
       | _ =>
           logging ERROR
             "Error al verificar los cambios en la configuración: {e}"
             [AExn e]
       end).

(** ** [main] and the scheduler loop *)

(** Lines 164-166: the first poll, then the registration of the reload
    job. *)
Definition main_startup (env : poll_env) : M unit :=
  check_config_changes env ;;
  schedule_every_do (JInt 1) CheckConfigChanges None ;;
  ret tt.

(** One job run by [schedule.run_pending()].  Time is abstracted: any job
    may be the one that is due.  A project cycle may also belong to a job
    cancelled earlier in the same tick, hence no membership premise. *)
Inductive step : state -> state -> Prop :=
| step_poll (s : state) (j : job) (env : poll_env) :
    In j (sched_jobs s) -> job_func j = CheckConfigChanges ->
    step s (exec (check_config_changes env) s)
| step_cycle (s : state) (folder_path repo_name : json) (env : cycle_env) :
    step s (exec (commit_and_push folder_path repo_name env) s).

Inductive reachable : state -> Prop :=
| reach_startup (env : poll_env) :
    reachable (exec (main_startup env) initial_state)
| reach_step (s s' : state) :
    reachable s -> step s s' -> reachable s'.

(** * Vocabulary of the statements *)

(** ** The commit-and-push cycle *)

Definition is_commit_pull_push (e : event) : bool :=
  is_commit e || is_pull e || is_push e.

Definition none_of (p : event -> bool) (l : list event) : bool :=
  forallb (fun e => negb (p e)) l.

Definition nothing_to_push (repo_name : json) : event :=
  Log INFO "No hay cambios para subir en {repo_name}" [AVal repo_name].

Definition is_error_log (e : event) : bool :=
  match e with
  | Log ERROR _ _ => true
  | _ => false
  end.

Definition empty_diff_env : cycle_env :=
  mkCycleEnv (Returns true) (Returns (Some "")) (Returns (Some "msg"))
             (Returns true) (Returns true) (Returns true).

Definition marker_env : cycle_env :=
  mkCycleEnv (Returns true) (Returns (Some "+x"))
             (Returns (Some "SYNTAX_ERROR: unbalanced"))
             (Returns true) (Returns true) (Returns true).

Definition no_message_env : cycle_env :=
  mkCycleEnv (Returns true) (Returns (Some "+x")) (Returns None)
             (Returns true) (Returns true) (Returns true).

(** A pull that fails: it reports failure, or it raises. *)
Definition fails (o : outcome bool) : Prop :=
  o = Returns false \/ exists e, o = Raises e.

Definition failing_pull_env : cycle_env :=
  mkCycleEnv (Returns true) (Returns (Some "+x")) (Returns (Some "Add x"))
             (Returns true) (Returns false) (Returns true).

(** ** The config watcher *)

(** The state without its trace: the two job lists, the last-modified
    marker, the loaded configuration and the credentials. *)
Definition untraced (s : state) : state :=
  mkState (config_last_modified s) (jobs s) (sched_jobs s) (next_id s)
          (config s) (git_credentials s) (genai_api_key s) [].

Definition returns_true (o : outcome bool) : bool :=
  match o with
  | Returns true => true
  | _ => false
  end.

Definition is_path (v : json) : bool :=
  match v with
  | JStr _ => true
  | _ => false
  end.

(** When each stage of the setup sequence lets [sync_project] go on, read off
    the answers of the outside world. *)
Definition init_ok (e : setup_env) : bool :=
  has_git_dir e
  || (returns_true (git_init_r e)
      && returns_true (git_config_pull_rebase_r e)).

Definition remote_url_ok (e : setup_env) : bool :=
  match get_remote_url_r e with
  | Returns (Some url) => negb (url =? "")
  | _ => false
  end.

Definition remote_repo_ok (e : setup_env) : bool :=
  match ls_remote_r e with
  | Returns _ => true
  | Raises CalledProcessError => returns_true (create_github_repo_r e)
  | Raises _ => false
  end.

Definition origin_ok (e : setup_env) : bool :=
  match remote_get_url_origin_r e with
  | Returns _ => true
  | Raises CalledProcessError => returns_true (remote_add_origin_r e)
  | Raises _ => false
  end.

Definition accepted (e : setup_env) : bool :=
  match every_do_refusal e with
  | None => true
  | Some _ => false
  end.

(** The fields [sync_project] reads from a project entry. *)
Definition project_fields (p : json) : option (json * json * json) :=
  match p with
  | JObj fields =>
      match assoc "folder_path" fields, assoc "repo_name" fields,
            assoc "interval" fields with
      | Some f, Some r, Some i => Some (f, r, i)
      | _, _, _ => None
      end
  | _ => None
  end.

(** A project's setup completes: the entry has its three keys, the folder
    is a path, every stage succeeds and the scheduler takes the interval. *)
Definition registers (p : json) (e : setup_env) : bool :=
  match project_fields p with
  | Some (f, _, _) =>
      is_path f && init_ok e && remote_url_ok e && remote_repo_ok e
      && origin_ok e && accepted e
  | None => false
  end.

(** The job [sync_project] creates for entry [p] when [n] identities were
    handed out before. *)
Definition project_job (n : nat) (p : json) : job :=
  match project_fields p with
  | Some (f, r, i) => mkJob n i (CommitAndPush f r)
  | None => mkJob n JNull (CommitAndPush JNull JNull)
  end.

(** The state after the jobs [new] were created and appended to both
    lists. *)
Definition with_new_jobs (new : list job) (s : state) : state :=
  set_jobs (jobs s ++ new)
    (set_sched_jobs (sched_jobs s ++ new)
       (set_next_id (next_id s + List.length new) s)).

(** A stage of the setup only adds to the trace, and lets [sync_project] go
    on exactly when its condition holds. *)
Definition stage_spec (m : M bool) (ok : bool) : Prop :=
  forall s,
    untraced (snd (m s)) = untraced s
    /\ (if ok then fst (m s) = Done true else fst (m s) <> Done true).

(** The scheduler's list after [for job in l: schedule.cancel_job(job)]. *)
Fixpoint remove_each (l : list job) (sched : list job) : list job :=
  match l with
  | [] => sched
  | j :: rest => remove_each rest (remove_job j sched)
  end.

(** The invariant of the two job lists: jobs are distinct objects, created
    before [next_id], and the module's [jobs] list is the scheduler's list
    without the reload job. *)
Record wf (s : state) : Prop := mkWf {
  wf_distinct : NoDup (map job_id (sched_jobs s));
  wf_created : Forall (fun j => job_id j < next_id s) (sched_jobs s);
  wf_jobs : jobs s = filter is_project_job (sched_jobs s)
}.

(** From [s] to [s'] the two job lists grew by [new]; nothing else changed
    but the trace. *)
Definition grows_by (new : list job) (s s' : state) : Prop :=
  untraced s' = untraced (with_new_jobs new s).

(** [new] are project jobs with the identities [n], [n+1], ... *)
Definition fresh_from (n : nat) (new : list job) : Prop :=
  map job_id new = seq n (List.length new)
  /\ Forall (fun j => is_project_job j = true) new.

(** The jobs a loop over [items] registers when it runs to its end, the
    first identity being [n]. *)
Fixpoint registered_jobs (items : list json) (i : nat) (env : poll_env)
    (n : nat) : list job :=
  match items with
  | [] => []
  | p :: rest =>
      if registers p (setup_r env i)
      then project_job n p :: registered_jobs rest (S i) env (S n)
      else registered_jobs rest (S i) env n
  end.

(** How many of [items] complete their setup. *)
Fixpoint completed (items : list json) (i : nat) (env : poll_env) : nat :=
  match items with
  | [] => 0
  | p :: rest =>
      (if registers p (setup_r env i) then 1 else 0)
      + completed rest (S i) env
  end.

(** The project entries [check_config_changes] iterates over. *)
Definition projects_of (c : json) : option (list json) :=
  match c with
  | JObj fields => items_of (lookup_or fields "projects" (JArr []))
  | _ => None
  end.

(** The poll sees a modification time newer than the marker. *)
Definition detects (env : poll_env) (s : state) : option Z :=
  match getmtime_r env with
  | Returns t => if is_newer t (config_last_modified s) then Some t else None
  | Raises _ => None
  end.

(** [sync_project] on this entry in this world returns, or raises, from
    whatever state it is called. *)
Definition returns (p : json) (e : setup_env) : Prop :=
  forall s, fst (sync_project p e s) = Done tt.

Definition raises_with (p : json) (e : setup_env) (x : exn) : Prop :=
  forall s, fst (sync_project p e s) = Raised x.

Definition last_event (s : state) : option event :=
  match rev (trace s) with
  | [] => None
  | e :: _ => Some e
  end.

(** The line the outer handler of [check_config_changes] logs. *)
Definition handler_line (x : exn) : event :=
  match x with
  | FileNotFoundError =>
      Log ERROR "Archivo de configuración no encontrado: {config_file}"
          [AText config_file]
  | _ =>
      Log ERROR "Error al verificar los cambios en la configuración: {e}"
          [AExn x]
  end.

(** The part of the state the schedule lives in. *)
Definition registry (s : state) : option Z * list job * list job * nat :=
  (config_last_modified s, jobs s, sched_jobs s, next_id s).

(** The state after lines 135-139: marker set, project jobs cancelled and
    forgotten. *)
Definition cleared (t : Z) (s : state) : state :=
  set_jobs []
    (set_sched_jobs (remove_each (jobs s) (sched_jobs s))
       (set_config_last_modified t s)).

(** What [load_config] hands back, by what opening and parsing meets. *)
Definition loaded (env : poll_env) : res (option json) :=
  match json_load_r env with
  | Returns c => Done (Some c)
  | Raises FileNotFoundError => Done None
  | Raises JSONDecodeError => Done None
  | Raises x => Raised x
  end.

Definition reloaded : event := Log INFO reloaded_message [].

(** The configuration the reload goes on with, if any: loaded and truthy. *)
Definition usable (env : poll_env) : option json :=
  match loaded env with
  | Done (Some c) => if truthy c then Some c else None
  | _ => None
  end.

(** The outer handler of [check_config_changes] around an outcome. *)
Definition caught (r : res unit * state) : res unit * state :=
  match r with
  | (Done u, s') => (Done u, s')
  | (Raised x, s') => (Done tt, add_event (handler_line x) s')
  end.

(** The state in which the reload starts, the time having been read. *)
Definition polled (s : state) : state := add_event (GetMTime config_file) s.

(** The registration loop over [items] got through [k] entries: each of
    them returned, and the loop either ran out of entries or entry [k]
    raised. *)
Definition stops_at (items : list json) (i : nat) (env : poll_env) (k : nat)
    (r : res unit) : Prop :=
  (forall j q, j < k -> nth_error items j = Some q ->
               exists sj,
                 fst (sync_project q (setup_r env (i + j)) sj) = Done tt)
  /\ match r with
     | Done _ => k = List.length items
     | Raised x =>
         exists p sk,
           nth_error items k = Some p
           /\ fst (sync_project p (setup_r env (i + k)) sk) = Raised x
     end.

(** ** Sample worlds *)

Definition demo_project : json :=
  JObj [("folder_path", JStr "/tmp/p"); ("repo_name", JStr "demo");
        ("interval", JInt 5)].

Definition demo_config : json :=
  JObj [("github_user", JStr "u"); ("github_token", JStr "k");
        ("google_api_key", JStr "g"); ("projects", JArr [demo_project])].

(** An existing repository with its remote: the setup changes nothing. *)
Definition ready_setup : setup_env :=
  mkSetupEnv true (Returns true) (Returns true)
             (Returns (Some "https://github.com/u/demo.git"))
             (Returns tt) (Returns true) (Returns tt) (Returns true) None.

(** The hosting collaborator has no URL for the repository. *)
Definition no_remote_setup : setup_env :=
  mkSetupEnv true (Returns true) (Returns true) (Returns None)
             (Returns tt) (Returns true) (Returns tt) (Returns true) None.

(** A readable, valid configuration file modified at time [t]. *)
Definition valid_env (t : Z) (c : json) (e : setup_env) : poll_env :=
  mkPollEnv (Returns t) (Returns c) (Returns tt) (Returns tt) (fun _ => e).

(** A file modified at time [t] that is not JSON. *)
Definition malformed_env (t : Z) : poll_env :=
  mkPollEnv (Returns t) (Raises JSONDecodeError) (Returns tt) (Returns tt)
            (fun _ => ready_setup).

(** The program after start-up with [demo_config] modified at time 10: one
    project job and the reload job. *)
Definition running_state : state :=
  exec (main_startup (valid_env 10 demo_config ready_setup)) initial_state.

(** ** Two sentences of the specification as they are written *)

(** "Configuration errors (missing/malformed file): previous schedule
    retained, reload retried next poll." *)
Definition failed_reload_keeps_schedule_and_retries : Prop :=
  forall (s : state) (env next : poll_env) (t : Z),
    reachable s ->
    detects env s = Some t ->
    json_load_r env = Raises FileNotFoundError
    \/ json_load_r env = Raises JSONDecodeError ->
    getmtime_r next = Returns t ->
    jobs (exec (check_config_changes env) s) = jobs s
    /\ sched_jobs (exec (check_config_changes env) s) = sched_jobs s
    /\ detects next (exec (check_config_changes env) s) = Some t.

(** "For all configs with N projects, after a successful reload the task
    registry contains exactly N project tasks plus the reload task." *)
Definition every_entry_gets_a_task : Prop :=
  forall (s : state) (env : poll_env) (t : Z) (c : json)
         (items : list json),
    reachable s ->
    detects env s = Some t ->
    json_load_r env = Returns c ->
    projects_of c = Some items ->
    last_event (exec (check_config_changes env) s) = Some reloaded ->
    List.length (jobs (exec (check_config_changes env) s))
    = List.length items
    /\ List.length (sched_jobs (exec (check_config_changes env) s))
       = List.length items + 1.

(** A configuration whose first project entry lacks its [interval]. *)
Definition broken_project : json :=
  JObj [("folder_path", JStr "/tmp/q"); ("repo_name", JStr "other")].

Definition broken_config : json :=
  JObj [("github_user", JStr "u"); ("github_token", JStr "k");
        ("google_api_key", JStr "g");
        ("projects", JArr [broken_project; demo_project])].

(** * Vocabulary of the further properties *)

Definition count_of (p : event -> bool) (l : list event) : nat :=
  List.length (filter p l).

Definition add_failed (folder_path : json) : event :=
  Log ERROR "Error al ejecutar 'git add .' en {folder_path}"
      [AVal folder_path].

(** A cycle in which every step succeeds, with the message [m]. *)
Definition smooth_env (d m : string) : cycle_env :=
  mkCycleEnv (Returns true) (Returns (Some d)) (Returns (Some m))
             (Returns true) (Returns true) (Returns true).

Definition failing_add_env : cycle_env :=
  mkCycleEnv (Returns false) (Returns (Some "+x")) (Returns (Some "Add x"))
             (Returns true) (Returns true) (Returns true).

(** The value [sync_project] reads for [private]: [False] when absent. *)
Definition private_of (p : json) : json :=
  match p with
  | JObj fields => lookup_or fields "private" (JBool false)
  | _ => JBool false
  end.

Definition syncing (repo_name folder_path : json) : event :=
  Log INFO "Sincronizando proyecto: {repo_name} en {folder_path}"
      [AVal repo_name; AVal folder_path].

Definition scheduled (repo_name interval : json) : event :=
  Log INFO "Tarea programada para {repo_name} cada {interval} minutos."
      [AVal repo_name; AVal interval].

Definition is_git_init (e : event) : bool :=
  match e with GitInit _ | GitConfigPullRebase _ => true | _ => false end.
Definition is_create_repo (e : event) : bool :=
  match e with CreateGithubRepo _ _ => true | _ => false end.
Definition is_add_origin (e : event) : bool :=
  match e with RemoteAddOrigin _ _ => true | _ => false end.

(** An empty folder whose remote repository does not exist yet: both
    probes exit non-zero, every step that follows succeeds. *)
Definition fresh_setup : setup_env :=
  mkSetupEnv false (Returns true) (Returns true)
             (Returns (Some "https://github.com/u/demo.git"))
             (Raises CalledProcessError) (Returns true)
             (Raises CalledProcessError) (Returns true) None.

(** The folder of the project does not exist: the probe cannot start. *)
Definition no_folder_setup : setup_env :=
  mkSetupEnv true (Returns true) (Returns true)
             (Returns (Some "https://github.com/u/demo.git"))
             (Raises FileNotFoundError) (Returns true)
             (Returns tt) (Returns true) None.

Definition private_project : json :=
  JObj [("folder_path", JStr "/tmp/p"); ("repo_name", JStr "demo");
        ("interval", JInt 5); ("private", JBool true)].

Definition numbered_folder_project : json :=
  JObj [("folder_path", JInt 7); ("repo_name", JStr "demo");
        ("interval", JInt 5)].

(** The state after lines 147-148 handed the credentials of the dict
    [fields] to the two collaborators; a key that is absent gives [None]. *)
Definition configured (fields : list (string * json)) (s : state) : state :=
  set_genai_api_key (lookup_or fields "google_api_key" JNull)
    (add_event (GenaiConfigure (lookup_or fields "google_api_key" JNull))
       (set_git_credentials
          (lookup_or fields "github_user" JNull,
           lookup_or fields "github_token" JNull)
          (add_event
             (GitConfigure (lookup_or fields "github_user" JNull)
                           (lookup_or fields "github_token" JNull))
             s))).

(** The file cannot be found when its time is read. *)
Definition missing_file_env : poll_env :=
  mkPollEnv (Raises FileNotFoundError) (Raises FileNotFoundError)
            (Returns tt) (Returns tt) (fun _ => ready_setup).


(** Configurations that parse but are not what the program expects. *)
Definition empty_config : json := JObj [].

Definition list_config : json := JArr [demo_project].

Definition no_projects_config : json :=
  JObj [("github_user", JStr "u"); ("github_token", JStr "k")].

Definition numeric_projects_config : json :=
  JObj [("github_user", JStr "u"); ("projects", JInt 3)].

Definition keyed_projects_config : json :=
  JObj [("github_user", JStr "u");
        ("projects", JObj [("demo", demo_project)])].

(** * Theorems *)

(** ** The commit-and-push cycle *)

Ltac run_cycle :=
  unfold exec, commit_and_push, try_except, commit_and_push_body,
    commit_pull_push, bind, call, logging, emit, update, ret, raise;
  simpl.

Ltac tidy_trace := simpl; rewrite <- ?app_assoc; simpl.

Lemma auto_commit_has_no_marker : str_in SYNTAX_ERROR auto_commit = false.
Proof. reflexivity. Qed.

Lemma fallback_when_not_generated (g : option string) :
  truthy_text g = false -> message_or_fallback g = auto_commit.
Proof.
  destruct g as [m |]; simpl; intros H; [rewrite H |]; reflexivity.
Qed.

Lemma marker_means_generated (g : option string) :
  str_in SYNTAX_ERROR (message_or_fallback g) = true ->
  exists m, g = Some m /\ truthy_text g = true /\ message_or_fallback g = m.
Proof.
  intros H. destruct (truthy_text g) eqn:T.
  - destruct g as [m |]; [| discriminate T].
    exists m. simpl in *. rewrite T. auto.
  - rewrite (fallback_when_not_generated g T) in H.
    rewrite auto_commit_has_no_marker in H. discriminate H.
Qed.

(** C5: when [git add] went through and the staged diff is empty (an empty
    text or no text at all), the cycle makes the two calls that led there,
    logs that there is nothing to push, and makes no commit, pull or push. *)
Theorem empty_diff_is_a_no_op
    (folder_path repo_name : json) (env : cycle_env) (s : state)
    (diff : option string) :
  git_add_r env = Returns true ->
  get_git_diff_r env = Returns diff ->
  truthy_text diff = false ->
  exists evs,
    trace (exec (commit_and_push folder_path repo_name env) s)
      = trace s ++ evs
    /\ evs = [GitAdd folder_path; GetGitDiff folder_path;
              nothing_to_push repo_name]
    /\ none_of is_commit_pull_push evs = true
    /\ In (nothing_to_push repo_name) evs.
Proof.
  intros Hadd Hdiff Hempty.
  eexists. split; [| split; [reflexivity | split; [reflexivity |]]].
  - run_cycle. rewrite Hadd. simpl. rewrite Hdiff. simpl.
    destruct diff as [d |]; simpl in *.
    + rewrite Hempty. tidy_trace. reflexivity.
    + tidy_trace. reflexivity.
  - simpl. auto.
Qed.

Lemma empty_diff_is_a_no_op_witness :
  exists evs,
    trace (exec (commit_and_push (JStr "/tmp/p") (JStr "demo")
                   empty_diff_env) initial_state)
      = trace initial_state ++ evs
    /\ evs = [GitAdd (JStr "/tmp/p"); GetGitDiff (JStr "/tmp/p");
              nothing_to_push (JStr "demo")]
    /\ none_of is_commit_pull_push evs = true
    /\ In (nothing_to_push (JStr "demo")) evs.
Proof.
  apply (empty_diff_is_a_no_op (JStr "/tmp/p") (JStr "demo") empty_diff_env
           initial_state (Some "")); reflexivity.
Defined.

(** C6: when the message the cycle goes on with (the generated one, or the
    fallback) contains the marker SYNTAX_ERROR, the cycle stops after logging
    the error: no commit, no pull, no push. *)
Theorem marker_aborts_the_cycle
    (folder_path repo_name : json) (env : cycle_env) (s : state)
    (d : string) (generated : option string) :
  git_add_r env = Returns true ->
  get_git_diff_r env = Returns (Some d) ->
  truthy_text (Some d) = true ->
  generate_commit_message_r env = Returns generated ->
  str_in SYNTAX_ERROR (message_or_fallback generated) = true ->
  exists evs,
    trace (exec (commit_and_push folder_path repo_name env) s)
      = trace s ++ evs
    /\ evs = [GitAdd folder_path; GetGitDiff folder_path;
              GenerateCommitMessage d;
              Log ERROR
                "Error de sintaxis detectado en el mensaje de commit." []]
    /\ none_of is_commit_pull_push evs = true.
Proof.
  intros Hadd Hdiff Hd Hgen Hmark.
  destruct (marker_means_generated generated Hmark) as (m & -> & Ht & Hm).
  eexists. split; [| split; reflexivity].
  run_cycle. rewrite Hadd. simpl. rewrite Hdiff. simpl.
  simpl in Hd. rewrite Hd. simpl. rewrite Hgen. simpl.
  simpl in Ht. rewrite Ht. simpl.
  simpl in Hmark. rewrite Ht in Hmark. rewrite Hmark.
  tidy_trace. reflexivity.
Qed.

Lemma marker_aborts_the_cycle_witness :
  exists evs,
    trace (exec (commit_and_push (JStr "/tmp/p") (JStr "demo") marker_env)
             initial_state)
      = trace initial_state ++ evs
    /\ evs = [GitAdd (JStr "/tmp/p"); GetGitDiff (JStr "/tmp/p");
              GenerateCommitMessage "+x";
              Log ERROR
                "Error de sintaxis detectado en el mensaje de commit." []]
    /\ none_of is_commit_pull_push evs = true.
Proof.
  apply (marker_aborts_the_cycle (JStr "/tmp/p") (JStr "demo") marker_env
           initial_state "+x" (Some "SYNTAX_ERROR: unbalanced"));
    reflexivity.
Defined.

(** C7: with a non-empty diff, when the generator returns nothing (no text
    or an empty text), the cycle warns and calls [git_commit] with the
    literal "Auto commit"; it is the only commit of the cycle. *)
Theorem fallback_message_is_committed
    (folder_path repo_name : json) (env : cycle_env) (s : state)
    (d : string) (generated : option string) :
  git_add_r env = Returns true ->
  get_git_diff_r env = Returns (Some d) ->
  truthy_text (Some d) = true ->
  generate_commit_message_r env = Returns generated ->
  truthy_text generated = false ->
  exists post,
    trace (exec (commit_and_push folder_path repo_name env) s)
      = trace s ++
        [GitAdd folder_path; GetGitDiff folder_path;
         GenerateCommitMessage d;
         Log WARNING "No se pudo generar un mensaje de commit." [];
         Log INFO "Commit message: {commit_message}" [AText "Auto commit"];
         GitCommit folder_path "Auto commit"] ++ post
    /\ none_of is_commit post = true.
Proof.
  intros Hadd Hdiff Hd Hgen Hnone.
  pose proof (fallback_when_not_generated generated Hnone) as Hmsg.
  run_cycle. rewrite Hadd. simpl. rewrite Hdiff. simpl.
  simpl in Hd. rewrite Hd. simpl. rewrite Hgen. simpl.
  rewrite Hnone, Hmsg. simpl.
  destruct (git_commit_r env) as [[|] | ec]; simpl;
    [ destruct (git_pull_r env) as [[|] | el]; simpl;
      [ destruct (git_push_r env) as [[|] | eh]; simpl | | ]
    | | ];
    eexists; (split; [tidy_trace; reflexivity | reflexivity]).
Qed.

Lemma fallback_message_is_committed_witness :
  exists post,
    trace (exec (commit_and_push (JStr "/tmp/p") (JStr "demo")
                   no_message_env) initial_state)
      = trace initial_state ++
        [GitAdd (JStr "/tmp/p"); GetGitDiff (JStr "/tmp/p");
         GenerateCommitMessage "+x";
         Log WARNING "No se pudo generar un mensaje de commit." [];
         Log INFO "Commit message: {commit_message}" [AText "Auto commit"];
         GitCommit (JStr "/tmp/p") "Auto commit"] ++ post
    /\ none_of is_commit post = true.
Proof.
  apply (fallback_message_is_committed (JStr "/tmp/p") (JStr "demo")
           no_message_env initial_state "+x" None); reflexivity.
Defined.

(** A generator that raises instead of returning nothing is not a case of
    the fallback: the exception reaches the handler of the cycle, which logs
    it, and nothing is committed. *)
Lemma raising_generator_abandons_the_cycle
    (folder_path repo_name : json) (env : cycle_env) (s : state)
    (d : string) (x : exn) :
  git_add_r env = Returns true ->
  get_git_diff_r env = Returns (Some d) ->
  truthy_text (Some d) = true ->
  generate_commit_message_r env = Raises x ->
  trace (exec (commit_and_push folder_path repo_name env) s)
  = trace s ++
    [GitAdd folder_path; GetGitDiff folder_path; GenerateCommitMessage d;
     Log ERROR "Error durante el commit y push en {repo_name}: {e}"
         [AVal repo_name; AExn x]].
Proof.
  intros Hadd Hdiff Hd Hgen.
  run_cycle. rewrite Hadd. simpl. rewrite Hdiff. simpl.
  simpl in Hd. rewrite Hd. simpl. rewrite Hgen. simpl.
  tidy_trace. reflexivity.
Qed.

(** C8: when the commit succeeded and the pull then fails, the cycle ends
    there with one error line: the commit call stands, nothing undoes it,
    and push is not called. *)
Theorem failed_pull_skips_push
    (folder_path repo_name : json) (env : cycle_env) (s : state)
    (d : string) (generated : option string) :
  git_add_r env = Returns true ->
  get_git_diff_r env = Returns (Some d) ->
  truthy_text (Some d) = true ->
  generate_commit_message_r env = Returns generated ->
  str_in SYNTAX_ERROR (message_or_fallback generated) = false ->
  git_commit_r env = Returns true ->
  fails (git_pull_r env) ->
  exists pre last,
    trace (exec (commit_and_push folder_path repo_name env) s)
      = trace s ++ pre ++
        [GitCommit folder_path (message_or_fallback generated);
         GitPull folder_path; last]
    /\ none_of is_commit_pull_push pre = true
    /\ is_error_log last = true
    /\ none_of is_push
         (pre ++ [GitCommit folder_path (message_or_fallback generated);
                  GitPull folder_path; last]) = true.
Proof.
  intros Hadd Hdiff Hd Hgen Hmark Hcommit Hpull.
  set (m := message_or_fallback generated) in *.
  set (head := [GitAdd folder_path; GetGitDiff folder_path;
                GenerateCommitMessage d]).
  set (warn := Log WARNING "No se pudo generar un mensaje de commit." []).
  set (info := Log INFO "Commit message: {commit_message}" [AText m]).
  exists (if truthy_text generated then head ++ [info]
          else head ++ [warn; info]).
  assert (Hrun : forall last o,
             git_pull_r env = o ->
             (o = Returns false ->
              last = Log ERROR "Error al ejecutar 'git pull' en {folder_path}"
                       [AVal folder_path]) ->
             (forall e, o = Raises e ->
              last = Log ERROR
                       "Error durante el commit y push en {repo_name}: {e}"
                       [AVal repo_name; AExn e]) ->
             o <> Returns true ->
             trace (exec (commit_and_push folder_path repo_name env) s)
             = trace s ++
               (if truthy_text generated then head ++ [info]
                else head ++ [warn; info]) ++
               [GitCommit folder_path m; GitPull folder_path; last]).
  { intros last o Ho Hfalse Hraise Hnot.
    run_cycle. rewrite Hadd. simpl. rewrite Hdiff. simpl.
    simpl in Hd. rewrite Hd. simpl. rewrite Hgen. simpl.
    fold m. rewrite Hmark.
    destruct (truthy_text generated); simpl; rewrite Hcommit; simpl;
      rewrite Ho;
      (destruct o as [[|] | e];
       [ contradiction Hnot; reflexivity
       | rewrite (Hfalse eq_refl); tidy_trace; reflexivity
       | rewrite (Hraise e eq_refl); tidy_trace; reflexivity ]). }
  destruct Hpull as [Hp | [e Hp]].
  - eexists. split; [apply (Hrun _ _ Hp) | ].
    + intros _. reflexivity.
    + intros e He. discriminate He.
    + discriminate.
    + destruct (truthy_text generated); repeat split; reflexivity.
  - eexists. split; [apply (Hrun _ _ Hp) | ].
    + intros He. discriminate He.
    + intros e' He. injection He as <-. reflexivity.
    + discriminate.
    + destruct (truthy_text generated); repeat split; reflexivity.
Qed.

Lemma failed_pull_skips_push_witness :
  exists pre last,
    trace (exec (commit_and_push (JStr "/tmp/p") (JStr "demo")
                   failing_pull_env) initial_state)
      = trace initial_state ++ pre ++
        [GitCommit (JStr "/tmp/p") (message_or_fallback (Some "Add x"));
         GitPull (JStr "/tmp/p"); last]
    /\ none_of is_commit_pull_push pre = true
    /\ is_error_log last = true
    /\ none_of is_push
         (pre ++ [GitCommit (JStr "/tmp/p")
                    (message_or_fallback (Some "Add x"));
                  GitPull (JStr "/tmp/p"); last]) = true.
Proof.
  apply (failed_pull_skips_push (JStr "/tmp/p") (JStr "demo")
           failing_pull_env initial_state "+x" (Some "Add x"));
    try reflexivity.
  left. reflexivity.
Defined.

(** ** The setup sequence of [sync_project] *)

Ltac unfold_py :=
  unfold exec, try_except, bind, call, logging, emit, update, read, ret,
    raise in *.

Lemma init_repository_spec (f : json) (e : setup_env) :
  stage_spec (init_repository f e) (is_path f && init_ok e).
Proof.
  intros s. unfold init_repository, path_join_git, init_ok, returns_true.
  unfold_py.
  destruct f; simpl; try (split; [reflexivity | discriminate]).
  destruct (has_git_dir e); simpl; [split; reflexivity |].
  destruct (git_init_r e) as [[|] | x]; simpl;
    try (split; [reflexivity | discriminate]).
  destruct (git_config_pull_rebase_r e) as [[|] | x]; simpl;
    split; try reflexivity; discriminate.
Qed.

Lemma ensure_remote_repo_spec (f r pv : json) (url : string)
    (e : setup_env) :
  stage_spec (ensure_remote_repo f r pv url e) (remote_repo_ok e).
Proof.
  intros s. unfold ensure_remote_repo, remote_repo_ok, returns_true.
  unfold_py.
  destruct (ls_remote_r e) as [[] | x]; simpl; [split; reflexivity |].
  destruct x; simpl; try (split; [reflexivity | discriminate]).
  destruct (create_github_repo_r e) as [[|] | x]; simpl;
    split; try reflexivity; discriminate.
Qed.

Lemma ensure_origin_spec (f : json) (url : string) (e : setup_env) :
  stage_spec (ensure_origin f url e) (origin_ok e).
Proof.
  intros s. unfold ensure_origin, origin_ok, returns_true.
  unfold_py.
  destruct (remote_get_url_origin_r e) as [[] | x]; simpl;
    [split; reflexivity |].
  destruct x; simpl; try (split; [reflexivity | discriminate]).
  destruct (remote_add_origin_r e) as [[|] | x]; simpl;
    split; try reflexivity; discriminate.
Qed.

Lemma register_job_spec (f r i : json) (e : setup_env) (s : state) :
  if accepted e then
    fst (register_job f r i e s) = Done tt
    /\ untraced (snd (register_job f r i e s))
       = untraced (with_new_jobs [mkJob (next_id s) i (CommitAndPush f r)] s)
  else
    untraced (snd (register_job f r i e s)) = untraced s
    /\ exists x, fst (register_job f r i e s) = Raised x.
Proof.
  unfold register_job, schedule_every_do, accepted. unfold_py.
  destruct (every_do_refusal e) as [x |]; simpl.
  - split; [reflexivity | exists x; reflexivity].
  - split; [reflexivity |].
    unfold untraced, with_new_jobs. simpl. now rewrite Nat.add_1_r.
Qed.

Lemma untraced_add_event (e : event) (s : state) :
  untraced (add_event e s) = untraced s.
Proof. reflexivity. Qed.

Lemma with_new_jobs_untraced (a b : state) (new : list job) :
  untraced a = untraced b ->
  untraced (with_new_jobs new a) = untraced (with_new_jobs new b).
Proof.
  destruct a, b. unfold untraced, with_new_jobs. simpl.
  intros H. injection H as -> -> -> -> -> -> ->. reflexivity.
Qed.

Lemma next_id_untraced (a b : state) :
  untraced a = untraced b -> next_id a = next_id b.
Proof. intros H. change (next_id (untraced a) = next_id (untraced b)).
       now rewrite H. Qed.

(** Run a stage whose specification is [H] at state [s], inside the
    equation [E] that names the outcome. *)
Ltac run_stage H m s E :=
  let U := fresh "U" in
  let G := fresh "G" in
  destruct (H s) as [U G];
  destruct (m s) as [[[|] | ?] ?];
  cbn [fst snd negb] in U, G, E;
  rewrite ?untraced_add_event in U.

Lemma setup_and_register_cases (f r i pv : json) (e : setup_env)
    (s : state) :
  if is_path f && init_ok e && remote_url_ok e && remote_repo_ok e
     && origin_ok e && accepted e
  then
    fst (setup_and_register f r i pv e s) = Done tt
    /\ untraced (snd (setup_and_register f r i pv e s))
       = untraced (with_new_jobs [mkJob (next_id s) i (CommitAndPush f r)] s)
  else untraced (snd (setup_and_register f r i pv e s)) = untraced s.
Proof.
  remember (setup_and_register f r i pv e s) as out eqn:E.
  cbv [setup_and_register bind call logging emit update ret raise] in E.
  unfold remote_url_ok.
  run_stage (init_repository_spec f e) (init_repository f e) s E;
    destruct (is_path f && init_ok e); try congruence;
    cbn [andb]; try (subst out; exact U).
  destruct (get_remote_url_r e) as [[url |] | x]; cbn [andb];
    try (subst out; exact U).
  cbn [truthy_text] in E.
  destruct (url =? ""); cbn [negb andb] in *; try (subst out; exact U).
  match type of E with
  | context [ensure_remote_repo f r pv url e ?s2] =>
      run_stage (ensure_remote_repo_spec f r pv url e)
                (ensure_remote_repo f r pv url e) s2 E
  end;
    destruct (remote_repo_ok e); try congruence;
    cbn [andb]; try (subst out; cbn [snd]; congruence).
  match type of E with
  | context [ensure_origin f url e ?s2] =>
      run_stage (ensure_origin_spec f url e) (ensure_origin f url e) s2 E
  end;
    destruct (origin_ok e); try congruence;
    cbn [andb]; try (subst out; cbn [snd]; congruence).
  pose proof (register_job_spec f r i e s2) as R.
  subst out. destruct (accepted e).
  - destruct R as [R1 R2]. split; [exact R1 |].
    rewrite R2. rewrite (next_id_untraced s2 s) by congruence.
    apply with_new_jobs_untraced. congruence.
  - destruct R as [R1 _]. congruence.
Qed.

Lemma sync_project_eq (fields : list (string * json)) (f r i : json)
    (e : setup_env) (s : state) :
  assoc "folder_path" fields = Some f ->
  assoc "repo_name" fields = Some r ->
  assoc "interval" fields = Some i ->
  sync_project (JObj fields) e s
  = setup_and_register f r i (lookup_or fields "private" (JBool false)) e
      (add_event
         (Log INFO "Sincronizando proyecto: {repo_name} en {folder_path}"
              [AVal r; AVal f]) s).
Proof.
  intros Hf Hr Hi.
  unfold sync_project, subscript, dict_get.
  rewrite Hf, Hr, Hi. reflexivity.
Qed.

(** What [sync_project] does to the state, apart from the trace: it adds
    the project's job to both lists when the setup completes, and nothing
    otherwise, whether it returns early or raises. *)
Lemma sync_project_cases (p : json) (e : setup_env) (s : state) :
  if registers p e then
    fst (sync_project p e s) = Done tt
    /\ untraced (snd (sync_project p e s))
       = untraced (with_new_jobs [project_job (next_id s) p] s)
  else untraced (snd (sync_project p e s)) = untraced s.
Proof.
  destruct p as [| b | n | q | t | items | fields]; try reflexivity.
  unfold registers, project_job, project_fields.
  destruct (assoc "folder_path" fields) as [f |] eqn:Hf;
    [| unfold sync_project, subscript; rewrite Hf; reflexivity].
  destruct (assoc "repo_name" fields) as [r |] eqn:Hr;
    [| unfold sync_project, subscript; rewrite Hf, Hr; reflexivity].
  destruct (assoc "interval" fields) as [i |] eqn:Hi;
    [| unfold sync_project, subscript; rewrite Hf, Hr, Hi; reflexivity].
  rewrite (sync_project_eq fields f r i e s Hf Hr Hi).
  exact (setup_and_register_cases f r i (lookup_or fields "private" (JBool false)) e _).
Qed.

(** ** Cancelling jobs *)

Lemma remove_job_filter (j : job) (l : list job) :
  NoDup (map job_id l) ->
  remove_job j l = filter (fun x => negb (Nat.eqb (job_id x) (job_id j))) l.
Proof.
  induction l as [| x l IH]; simpl; intros Hnd; [reflexivity |].
  inversion Hnd as [| ? ? Hnotin Hnd']; subst.
  destruct (Nat.eqb (job_id x) (job_id j)) eqn:E; simpl.
  - apply Nat.eqb_eq in E.
    symmetry. rewrite <- (filter_ext_in (fun _ => true)).
    + clear. induction l; simpl; congruence.
    + intros y Hy. symmetry. apply negb_true_iff. apply Nat.eqb_neq.
      intros Heq. apply Hnotin. rewrite E, <- Heq. now apply in_map.
  - now rewrite IH.
Qed.

Lemma NoDup_map_filter (p : job -> bool) (l : list job) :
  NoDup (map job_id l) -> NoDup (map job_id (filter p l)).
Proof.
  induction l as [| x l IH]; simpl; intros Hnd; [constructor |].
  inversion Hnd as [| ? ? Hnotin Hnd']; subst.
  destruct (p x); simpl; [constructor |]; auto.
  intros Hin. apply Hnotin. apply in_map_iff in Hin.
  destruct Hin as (y & Hy & Hin). apply filter_In in Hin.
  rewrite <- Hy. apply in_map. tauto.
Qed.

Lemma job_id_injective (l : list job) (x y : job) :
  NoDup (map job_id l) -> In x l -> In y l -> job_id x = job_id y -> x = y.
Proof.
  induction l as [| z l IH]; simpl; intros Hnd Hx Hy Heq; [tauto |].
  inversion Hnd as [| ? ? Hnotin Hnd']; subst.
  destruct Hx as [-> | Hx], Hy as [-> | Hy]; auto.
  - exfalso. apply Hnotin. rewrite Heq. now apply in_map.
  - exfalso. apply Hnotin. rewrite <- Heq. now apply in_map.
Qed.

Lemma remove_each_filter (js l : list job) :
  NoDup (map job_id l) ->
  remove_each js l
  = filter (fun x => negb (existsb (fun j => Nat.eqb (job_id x) (job_id j)) js))
           l.
Proof.
  revert l. induction js as [| j js IH]; simpl; intros l Hnd.
  - symmetry. clear. induction l; simpl; congruence.
  - rewrite (remove_job_filter j l Hnd).
    rewrite IH by now apply NoDup_map_filter.
    clear. induction l as [| x l IH]; simpl; [reflexivity |].
    destruct (Nat.eqb (job_id x) (job_id j)); simpl; rewrite IH; reflexivity.
Qed.

Lemma reload_job_not_project (j : job) :
  is_reload_job j = negb (is_project_job j).
Proof. unfold is_reload_job, is_project_job. destruct (job_func j); auto. Qed.

(** Cancelling every job of [jobs] leaves the scheduler with the jobs that
    are not project jobs, in their order. *)
Lemma remove_each_project_jobs (l : list job) :
  NoDup (map job_id l) ->
  remove_each (filter is_project_job l) l = filter is_reload_job l.
Proof.
  intros Hnd. rewrite (remove_each_filter _ l Hnd).
  apply filter_ext_in. intros x Hx.
  rewrite reload_job_not_project. f_equal.
  destruct (is_project_job x) eqn:Hp.
  - apply existsb_exists. exists x. split.
    + apply filter_In. auto.
    + apply Nat.eqb_refl.
  - apply not_true_is_false. intros Hex.
    apply existsb_exists in Hex. destruct Hex as (j & Hj & Heq).
    apply filter_In in Hj. destruct Hj as [Hj Hpj].
    apply Nat.eqb_eq in Heq.
    rewrite (job_id_injective l x j Hnd Hx Hj Heq) in Hp. congruence.
Qed.

(** ** The registration loop *)

Lemma grows_by_nil (s s' : state) :
  untraced s' = untraced s -> grows_by [] s s'.
Proof.
  intros H. unfold grows_by. rewrite H.
  unfold untraced, with_new_jobs. simpl.
  now rewrite !app_nil_r, Nat.add_0_r.
Qed.

Lemma grows_by_app (a b : list job) (s s1 s2 : state) :
  grows_by a s s1 -> grows_by b s1 s2 -> grows_by (a ++ b) s s2.
Proof.
  unfold grows_by. intros H1 H2. rewrite H2.
  rewrite (with_new_jobs_untraced _ _ b H1).
  unfold untraced, with_new_jobs. simpl.
  now rewrite <- !app_assoc, length_app, Nat.add_assoc.
Qed.

Lemma grows_by_next_id (new : list job) (s s' : state) :
  grows_by new s s' -> next_id s' = next_id s + List.length new.
Proof. intros H. apply next_id_untraced in H. exact H. Qed.

(** The loop registers the jobs of the entries it got through: all of them
    when it returns, those before the entry that raised otherwise. *)
Lemma sync_each_shape (env : poll_env) (items : list json) :
  forall (i : nat) (s : state),
  exists k,
    k <= List.length items
    /\ grows_by (registered_jobs (firstn k items) i env (next_id s)) s
                (snd (sync_each items i env s))
    /\ (fst (sync_each items i env s) = Done tt -> k = List.length items)
    /\ stops_at items i env k (fst (sync_each items i env s)).
Proof.
  induction items as [| p rest IH]; intros i s.
  - exists 0. simpl. split; [lia |]. split; [now apply grows_by_nil |].
    split; [reflexivity |]. split; [intros j q Hj; lia | reflexivity].
  - cbn [sync_each]. unfold bind.
    pose proof (sync_project_cases p (setup_r env i) s) as C.
    destruct (sync_project p (setup_r env i) s) as [[[] | x] s1] eqn:E;
      cbn [fst snd] in C.
    + destruct (IH (S i) s1) as (k & Hk & Hg & Hd & Hs).
      exists (S k). cbn [firstn registered_jobs List.length].
      split; [lia |].
      assert (Hstop : stops_at (p :: rest) i env (S k)
                        (fst (sync_each rest (S i) env s1))).
      { destruct Hs as [Hbefore Hat]. split.
        - intros [| j] q Hj Hq.
          + injection Hq as <-. exists s.
            rewrite Nat.add_0_r, E. reflexivity.
          + destruct (Hbefore j q) as (sj & Hsj); [lia | exact Hq |].
            exists sj. now rewrite <- Nat.add_succ_comm.
        - destruct (fst (sync_each rest (S i) env s1)) as [u | x].
          + simpl. now f_equal.
          + destruct Hat as (q & sk & Hq & Hsk). exists q, sk.
            split; [exact Hq | now rewrite <- Nat.add_succ_comm]. }
      destruct (registers p (setup_r env i)).
      * destruct C as [_ C].
        split; [| split; [intros D; f_equal; auto | exact Hstop]].
        change (project_job (next_id s) p
                  :: registered_jobs (firstn k rest) (S i) env (S (next_id s)))
          with ([project_job (next_id s) p]
                  ++ registered_jobs (firstn k rest) (S i) env (S (next_id s))).
        apply (grows_by_app _ _ s s1); [exact C |].
        replace (S (next_id s)) with (next_id s1); [exact Hg |].
        rewrite (grows_by_next_id _ _ _ C). simpl. lia.
      * split; [| split; [intros D; f_equal; auto | exact Hstop]].
        rewrite <- (next_id_untraced _ _ C).
        unfold grows_by in *. rewrite Hg.
        now apply with_new_jobs_untraced.
    + exists 0. cbn [firstn registered_jobs fst snd].
      split; [lia |]. split; [| split; [discriminate |]].
      * destruct (registers p (setup_r env i)).
        -- destruct C as [C _]. discriminate C.
        -- now apply grows_by_nil.
      * split; [intros j q Hj; lia |].
        exists p, s. split; [reflexivity |].
        rewrite Nat.add_0_r, E. reflexivity.
Qed.

Lemma registered_jobs_fresh (env : poll_env) (items : list json) :
  forall i n, fresh_from n (registered_jobs items i env n).
Proof.
  unfold fresh_from.
  induction items as [| p rest IH]; intros i n; simpl.
  - split; [reflexivity | constructor].
  - destruct (registers p (setup_r env i)) eqn:R.
    + destruct (IH (S i) (S n)) as [Hid Hp]. simpl. split.
      * unfold project_job at 1.
        destruct (project_fields p) as [[[f r] v] |]; simpl; now rewrite Hid.
      * constructor; [| exact Hp].
        unfold project_job, is_project_job.
        destruct (project_fields p) as [[[f r] v] |]; reflexivity.
    + apply IH.
Qed.

Lemma registered_jobs_length (env : poll_env) (items : list json) :
  forall i n,
    List.length (registered_jobs items i env n) = completed items i env.
Proof.
  induction items as [| p rest IH]; intros i n; simpl; [reflexivity |].
  destruct (registers p (setup_r env i)); simpl; now rewrite IH.
Qed.

Lemma completed_le_length (env : poll_env) (items : list json) :
  forall i, completed items i env <= List.length items.
Proof.
  induction items as [| p rest IH]; intros i; simpl; [lia |].
  specialize (IH (S i)). destruct (registers p (setup_r env i)); lia.
Qed.

Lemma completed_all (env : poll_env) (items : list json) :
  forall i,
    (forall k p, nth_error items k = Some p ->
                 registers p (setup_r env (i + k)) = true) ->
    completed items i env = List.length items.
Proof.
  induction items as [| p rest IH]; intros i H; simpl; [reflexivity |].
  rewrite (IH (S i)).
  - pose proof (H 0 p eq_refl) as H0. rewrite Nat.add_0_r in H0.
    now rewrite H0.
  - intros k q Hq. replace (S i + k) with (i + S k) by lia. now apply H.
Qed.

(** ** Clearing and reloading *)

Lemma registry_untraced (a b : state) :
  untraced a = untraced b -> registry a = registry b.
Proof.
  intros H. change (registry (untraced a) = registry (untraced b)).
  now rewrite H.
Qed.

Lemma cancel_each_spec (l : list job) :
  forall s,
    fst (cancel_each l s) = Done tt
    /\ untraced (snd (cancel_each l s))
       = untraced (set_sched_jobs (remove_each l (sched_jobs s)) s).
Proof.
  induction l as [| j rest IH]; intros s; simpl.
  - split; reflexivity.
  - unfold cancel_job. unfold_py. simpl.
    match goal with
    | |- context [cancel_each rest ?s1] =>
        destruct (IH s1) as [H1 H2];
        destruct (cancel_each rest s1) as [[[] | x] s2]; simpl in *
    end.
    + split; [reflexivity | exact H2].
    + discriminate H1.
Qed.

Lemma set_jobs_untraced (a b : state) (l : list job) :
  untraced a = untraced b ->
  untraced (set_jobs l a) = untraced (set_jobs l b).
Proof.
  destruct a, b. unfold untraced, set_jobs. simpl.
  intros H. injection H as -> -> -> -> -> -> ->. reflexivity.
Qed.

Lemma clear_schedule_spec (t : Z) (s : state) :
  fst (clear_schedule t s) = Done tt
  /\ untraced (snd (clear_schedule t s)) = untraced (cleared t s).
Proof.
  unfold clear_schedule. unfold_py. simpl.
  match goal with
  | |- context [cancel_each ?l ?s1] =>
      destruct (cancel_each_spec l s1) as [H1 H2];
      destruct (cancel_each l s1) as [[[] | x] s2]; simpl in *
  end.
  - split; [reflexivity |].
    rewrite (set_jobs_untraced _ _ [] H2). reflexivity.
  - discriminate H1.
Qed.

Lemma load_config_spec (env : poll_env) (s : state) :
  fst (load_config env s) = loaded env
  /\ untraced (snd (load_config env s)) = untraced s.
Proof.
  unfold load_config, loaded. unfold_py.
  destruct (json_load_r env) as [c | x]; simpl; [split; reflexivity |].
  destruct x; simpl; split; reflexivity.
Qed.

Lemma last_event_add_event (e : event) (s : state) :
  last_event (add_event e s) = Some e.
Proof. unfold last_event. simpl. now rewrite rev_unit. Qed.

Lemma handler_line_is_error (x : exn) : is_error_log (handler_line x) = true.
Proof. destruct x; reflexivity. Qed.

Ltac no_new_jobs :=
  exists [];
  split;
  [ unfold registry, with_new_jobs; simpl;
    now rewrite ?app_nil_r, ?Nat.add_0_r
  | split;
    [ split; [reflexivity | constructor]
    | intros ? Hitems; exists 0;
      split;
      [ lia
      | split;
        [ reflexivity
        | split;
          [ intros D; discriminate D
          | intros ? ?; first [discriminate Hitems | congruence] ] ] ] ] ].

(** Applying a loaded configuration adds the jobs of the entries the loop
    got through, and touches neither the marker nor the older jobs. *)
Lemma apply_config_shape (c : json) (env : poll_env) (s : state) :
  exists new,
    registry (snd (apply_config c env s)) = registry (with_new_jobs new s)
    /\ fresh_from (next_id s) new
    /\ forall items,
         projects_of c = Some items ->
         exists k,
           k <= List.length items
           /\ new = registered_jobs (firstn k items) 0 env (next_id s)
           /\ (fst (apply_config c env s) = Done tt -> k = List.length items)
           /\ (git_configure_r env = Returns tt ->
               genai_configure_r env = Returns tt ->
               stops_at items 0 env k (fst (apply_config c env s))).
Proof.
  destruct c as [| b | n | q | t | l | fields]; try no_new_jobs.
  cbv [apply_config bind call emit update ret raise dict_get iterate logging].
  destruct (git_configure_r env) as [[] | x] eqn:G1; [| no_new_jobs].
  destruct (genai_configure_r env) as [[] | x] eqn:G2; [| no_new_jobs].
  cbv [projects_of].
  destruct (items_of (lookup_or fields "projects" (JArr []))) as [items |];
    [| no_new_jobs].
  match goal with
  | |- context [sync_each items 0 env ?s3] =>
      destruct (sync_each_shape env items 0 s3) as (k & Hk & Hg & Hd & Hs);
      destruct (sync_each items 0 env s3) as [[[] | x] s4];
      cbn [fst snd next_id set_genai_api_key set_git_credentials add_event]
        in Hg, Hd, Hs |- *
  end;
    exists (registered_jobs (firstn k items) 0 env (next_id s));
    (split; [apply registry_untraced in Hg; exact Hg |]);
    (split; [apply registered_jobs_fresh |]);
    intros items' [= <-]; exists k;
    (split; [exact Hk |]); (split; [reflexivity |]).
  - split; [intros _; now apply Hd | intros _ _; exact Hs].
  - split; [discriminate | intros _ _; exact Hs].
Qed.

Lemma with_new_jobs_registry (a b : state) (new : list job) :
  registry a = registry b ->
  registry (with_new_jobs new a) = registry (with_new_jobs new b).
Proof.
  unfold registry, with_new_jobs. simpl.
  intros H. injection H as -> -> -> ->. reflexivity.
Qed.

Lemma next_id_registry (a b : state) :
  registry a = registry b -> next_id a = next_id b.
Proof. unfold registry. intros H. now injection H. Qed.

(** A reload leaves the cleared schedule plus the jobs of the entries the
    registration loop got through. *)
Lemma reload_shape (t : Z) (env : poll_env) (s : state) :
  exists new,
    registry (snd (reload t env s)) = registry (with_new_jobs new (cleared t s))
    /\ fresh_from (next_id s) new
    /\ (usable env = None -> new = [])
    /\ forall c items,
         usable env = Some c -> projects_of c = Some items ->
         exists k,
           k <= List.length items
           /\ new = registered_jobs (firstn k items) 0 env (next_id s)
           /\ (fst (reload t env s) = Done tt -> k = List.length items)
           /\ (git_configure_r env = Returns tt ->
               genai_configure_r env = Returns tt ->
               stops_at items 0 env k (fst (reload t env s))).
Proof.
  remember (reload t env s) as out eqn:E.
  cbv [reload bind update] in E. unfold usable.
  destruct (clear_schedule_spec t s) as [C1 C2].
  destruct (clear_schedule t s) as [[[] | x] s1]; [| discriminate C1].
  cbn [snd] in C2.
  destruct (load_config_spec env s1) as [L1 L2].
  destruct (load_config env s1) as [r s2]. cbn [fst snd] in L1, L2.
  rewrite <- L1.
  assert (H2 : registry s2 = registry (cleared t s)).
  { apply registry_untraced. congruence. }
  assert (Hn : next_id s2 = next_id s).
  { exact (next_id_registry _ _ H2). }
  assert (Hnone : forall r3 s3,
             out = (r3, s3) ->
             registry s3 = registry s2 ->
             match r with
             | Done (Some c) => truthy c = false
             | _ => True
             end ->
             exists new,
               registry (snd out) = registry (with_new_jobs new (cleared t s))
               /\ fresh_from (next_id s) new
               /\ (match r with
                   | Done (Some c) => if truthy c then Some c else None
                   | _ => None
                   end = None -> new = [])
               /\ forall c items,
                    match r with
                    | Done (Some c) => if truthy c then Some c else None
                    | _ => None
                    end = Some c -> projects_of c = Some items ->
                    exists k,
                      k <= List.length items
                      /\ new = registered_jobs (firstn k items) 0 env
                                 (next_id s)
                      /\ (fst out = Done tt -> k = List.length items)
                      /\ (git_configure_r env = Returns tt ->
                          genai_configure_r env = Returns tt ->
                          stops_at items 0 env k (fst out))).
  { intros r3 s3 -> H3 Hr. exists []. cbn [snd].
    split; [| split; [| split]].
    - rewrite H3, H2. unfold registry, with_new_jobs. simpl.
      now rewrite ?app_nil_r, Nat.add_0_r.
    - split; [reflexivity | constructor].
    - reflexivity.
    - intros c items Hc. destruct r as [[c' |] | x]; try discriminate Hc.
      rewrite Hr in Hc. discriminate Hc. }
  destruct r as [[c |] | x];
    [| eapply Hnone; [exact E | reflexivity | exact I] ..].
  destruct (truthy c) eqn:T;
    [| eapply Hnone; [exact E | reflexivity | reflexivity]].
  clear Hnone.
  destruct (apply_config_shape c env (set_config (Some c) s2))
    as (new & Hreg & Hfresh & Hitems).
  cbn [next_id set_config] in Hfresh, Hitems.
  rewrite Hn in Hfresh, Hitems. rewrite <- E in Hreg, Hitems.
  exists new. split; [| split; [| split]].
  - rewrite Hreg. apply with_new_jobs_registry. exact H2.
  - exact Hfresh.
  - discriminate.
  - intros c' items [= <-] Hp. now apply Hitems.
Qed.

(** ** One poll *)

Lemma check_detected (env : poll_env) (s : state) (t : Z) :
  detects env s = Some t ->
  check_config_changes env s = caught (reload t env (polled s)).
Proof.
  unfold detects, check_config_changes, caught, polled. unfold_py.
  destruct (getmtime_r env) as [t' | x]; [| discriminate].
  simpl. destruct (is_newer t' (config_last_modified s)); [| discriminate].
  intros [= ->].
  destruct (reload t env (add_event (GetMTime config_file) s))
    as [[[] | x] s']; [reflexivity |].
  destruct x; reflexivity.
Qed.

Lemma check_undetected (env : poll_env) (s : state) :
  detects env s = None ->
  fst (check_config_changes env s) = Done tt
  /\ untraced (exec (check_config_changes env) s) = untraced s.
Proof.
  unfold detects, check_config_changes. unfold_py.
  destruct (getmtime_r env) as [t' | x]; simpl.
  - destruct (is_newer t' (config_last_modified s)); [discriminate |].
    intros _. split; reflexivity.
  - intros _. destruct x; split; reflexivity.
Qed.

Lemma caught_returns (r : res unit * state) : fst (caught r) = Done tt.
Proof. destruct r as [[[] | x] s']; reflexivity. Qed.

Lemma caught_registry (r : res unit * state) :
  registry (snd (caught r)) = registry (snd r).
Proof. destruct r as [[[] | x] s']; reflexivity. Qed.

Lemma caught_reloaded (r : res unit * state) :
  last_event (snd (caught r)) = Some reloaded -> fst r = Done tt.
Proof.
  destruct r as [[[] | x] s']; [reflexivity |].
  unfold caught. cbn [snd]. rewrite last_event_add_event.
  intros [= H]. destruct x; discriminate H.
Qed.

(** [check_config_changes] never raises. *)
Lemma check_config_changes_returns (env : poll_env) (s : state) :
  fst (check_config_changes env s) = Done tt.
Proof.
  destruct (detects env s) as [t |] eqn:D.
  - rewrite (check_detected env s t D). apply caught_returns.
  - now apply check_undetected.
Qed.

(** ** The invariant of the job lists *)

Lemma wf_registry (a b : state) : registry a = registry b -> wf b -> wf a.
Proof.
  unfold registry. intros H [H1 H2 H3].
  injection H as _ Hj Hs Hn.
  constructor; rewrite ?Hj, ?Hs, ?Hn; assumption.
Qed.

Lemma filter_none_project (l : list job) :
  filter is_project_job (filter is_reload_job l) = [].
Proof.
  induction l as [| x l IH]; simpl; [reflexivity |].
  destruct (is_reload_job x) eqn:R; simpl; [| exact IH].
  rewrite reload_job_not_project in R. apply negb_true_iff in R.
  now rewrite R.
Qed.

Lemma filter_all_project (l : list job) :
  Forall (fun j => is_project_job j = true) l -> filter is_project_job l = l.
Proof.
  induction 1 as [| x l Hx _ IH]; simpl; [reflexivity |].
  now rewrite Hx, IH.
Qed.

Lemma cleared_sched_jobs (t : Z) (s : state) :
  wf s -> sched_jobs (cleared t s) = filter is_reload_job (sched_jobs s).
Proof.
  intros [H1 _ H3]. simpl. rewrite H3.
  now apply remove_each_project_jobs.
Qed.

Lemma wf_cleared (t : Z) (s : state) : wf s -> wf (cleared t s).
Proof.
  intros W. pose proof (cleared_sched_jobs t s W) as Hs.
  destruct W as [H1 H2 H3]. constructor; rewrite ?Hs.
  - now apply NoDup_map_filter.
  - apply Forall_forall. intros j Hj. apply filter_In in Hj.
    rewrite Forall_forall in H2. apply H2. tauto.
  - simpl jobs. symmetry. apply filter_none_project.
Qed.

Lemma wf_with_new_jobs (new : list job) (s : state) :
  wf s -> fresh_from (next_id s) new -> wf (with_new_jobs new s).
Proof.
  intros [H1 H2 H3] [F1 F2]. constructor; simpl.
  - rewrite map_app. apply NoDup_app; [exact H1 | |].
    + rewrite F1. apply seq_NoDup.
    + intros n Hn Hn'. rewrite F1 in Hn'. apply in_seq in Hn'.
      apply in_map_iff in Hn. destruct Hn as (j & <- & Hj).
      rewrite Forall_forall in H2. specialize (H2 j Hj). lia.
  - apply Forall_app. split.
    + eapply Forall_impl; [| exact H2]. simpl. intros; lia.
    + apply Forall_forall. intros j Hj.
      assert (Hin : In (job_id j) (map job_id new)) by now apply in_map.
      rewrite F1 in Hin. apply in_seq in Hin. lia.
  - rewrite filter_app, <- H3. f_equal. symmetry.
    now apply filter_all_project.
Qed.

Lemma wf_untraced (a b : state) : untraced a = untraced b -> wf b -> wf a.
Proof. intros H. apply wf_registry. now apply registry_untraced. Qed.

(** A poll preserves the invariant. *)
Lemma wf_check_config_changes (env : poll_env) (s : state) :
  wf s -> wf (exec (check_config_changes env) s).
Proof.
  intros W. destruct (detects env s) as [t |] eqn:D.
  - unfold exec. rewrite (check_detected env s t D).
    destruct (reload_shape t env (polled s)) as (new & Hreg & Hfresh & _).
    eapply wf_registry; [rewrite caught_registry; exact Hreg |].
    apply wf_with_new_jobs; [| exact Hfresh].
    apply wf_cleared. now apply (wf_untraced _ s).
  - destruct (check_undetected env s D) as [_ H].
    now apply (wf_untraced _ s).
Qed.

Lemma commit_and_push_untraced (f r : json) (env : cycle_env) (s : state) :
  untraced (exec (commit_and_push f r env) s) = untraced s.
Proof.
  run_cycle.
  destruct (git_add_r env) as [[|] | ?]; simpl; try reflexivity.
  destruct (get_git_diff_r env) as [[d |] | ?]; simpl; try reflexivity.
  destruct (negb (d =? "")); simpl; try reflexivity.
  destruct (generate_commit_message_r env) as [g | ?]; simpl;
    try reflexivity.
  destruct (truthy_text g); simpl;
    (destruct (str_in SYNTAX_ERROR (message_or_fallback g)); simpl;
     try reflexivity;
     destruct (git_commit_r env) as [[|] | ?]; simpl; try reflexivity;
     destruct (git_pull_r env) as [[|] | ?]; simpl; try reflexivity;
     destruct (git_push_r env) as [[|] | ?]; simpl; reflexivity).
Qed.

Lemma wf_initial_state : wf initial_state.
Proof. constructor; simpl; constructor. Qed.

Lemma main_startup_eq (env : poll_env) :
  exec (main_startup env) initial_state
  = let s := exec (check_config_changes env) initial_state in
    set_sched_jobs
      (sched_jobs s ++ [mkJob (next_id s) (JInt 1) CheckConfigChanges])
      (set_next_id (S (next_id s)) s).
Proof.
  unfold main_startup, exec, bind at 1.
  pose proof (check_config_changes_returns env initial_state) as R.
  destruct (check_config_changes env initial_state) as [[[] | x] s];
    [reflexivity | discriminate R].
Qed.

Lemma wf_main_startup (env : poll_env) :
  wf (exec (main_startup env) initial_state).
Proof.
  rewrite main_startup_eq.
  pose proof (wf_check_config_changes env initial_state wf_initial_state)
    as [H1 H2 H3].
  set (s := exec (check_config_changes env) initial_state) in *.
  constructor; simpl.
  - rewrite map_app. apply NoDup_app; [exact H1 | |].
    + simpl. constructor; [tauto | constructor].
    + intros n Hn [<- | []]. apply in_map_iff in Hn.
      destruct Hn as (j & Hid & Hj). simpl in Hid.
      rewrite Forall_forall in H2. specialize (H2 j Hj). simpl in H2. lia.
  - apply Forall_app. split.
    + eapply Forall_impl; [| exact H2]. simpl. intros; lia.
    + constructor; [simpl; lia | constructor].
  - rewrite filter_app. simpl. now rewrite app_nil_r.
Qed.

(** Every state the program reaches satisfies the invariant. *)
Lemma reachable_wf (s : state) : reachable s -> wf s.
Proof.
  induction 1 as [env | s s' _ IH St].
  - apply wf_main_startup.
  - destruct St as [s j env _ _ | s f r env].
    + now apply wf_check_config_changes.
    + eapply wf_untraced; [apply commit_and_push_untraced | exact IH].
Qed.

(** ** What a poll that detects a change leaves *)

Lemma poll_shape (env : poll_env) (s : state) (t : Z) :
  wf s ->
  detects env s = Some t ->
  exists new,
    config_last_modified (exec (check_config_changes env) s) = Some t
    /\ jobs (exec (check_config_changes env) s) = new
    /\ sched_jobs (exec (check_config_changes env) s)
       = filter is_reload_job (sched_jobs s) ++ new
    /\ next_id (exec (check_config_changes env) s)
       = next_id s + List.length new
    /\ fresh_from (next_id s) new
    /\ (usable env = None -> new = [])
    /\ forall c items,
         usable env = Some c -> projects_of c = Some items ->
         exists k,
           k <= List.length items
           /\ new = registered_jobs (firstn k items) 0 env (next_id s)
           /\ (last_event (exec (check_config_changes env) s) = Some reloaded
               -> k = List.length items)
           /\ (git_configure_r env = Returns tt ->
               genai_configure_r env = Returns tt ->
               stops_at items 0 env k (fst (reload t env (polled s)))).
Proof.
  intros W D. unfold exec. rewrite (check_detected env s t D).
  destruct (reload_shape t env (polled s))
    as (new & Hreg & Hfresh & Hnone & Hitems).
  rewrite <- caught_registry in Hreg.
  pose proof (cleared_sched_jobs t s W) as Hs.
  unfold registry in Hreg. simpl in Hreg, Hs.
  injection Hreg as Hm Hj Hsched Hn.
  exists new. rewrite Hm, Hj, Hsched, Hn, Hs.
  repeat (split; [first [reflexivity | assumption] |]).
  intros c items Hc Hp.
  destruct (Hitems c items Hc Hp) as (k & Hk & Hnew & Hd & Hstop).
  exists k. repeat (split; [assumption |]).
  split; [| exact Hstop].
  intros L. apply Hd. now apply caught_reloaded.
Qed.

Lemma check_not_newer (env : poll_env) (s : state) (t : Z) :
  getmtime_r env = Returns t ->
  is_newer t (config_last_modified s) = false ->
  check_config_changes env s = (Done tt, polled s).
Proof.
  intros Hm Hn. unfold check_config_changes.
  cbv [try_except bind call emit update read ret raise].
  rewrite Hm. cbn [config_last_modified add_event]. rewrite Hn. reflexivity.
Qed.

(** C4: when the file's modification time equals the recorded one, the poll
    reads the time and does nothing else: both job lists, the marker and
    the credentials of the two collaborators stay as they were. *)
Theorem unchanged_mtime_poll_is_a_no_op
    (env : poll_env) (s : state) (t : Z) :
  config_last_modified s = Some t ->
  getmtime_r env = Returns t ->
  jobs (exec (check_config_changes env) s) = jobs s
  /\ sched_jobs (exec (check_config_changes env) s) = sched_jobs s
  /\ config_last_modified (exec (check_config_changes env) s)
     = config_last_modified s
  /\ git_credentials (exec (check_config_changes env) s) = git_credentials s
  /\ genai_api_key (exec (check_config_changes env) s) = genai_api_key s
  /\ trace (exec (check_config_changes env) s)
     = trace s ++ [GetMTime config_file].
Proof.
  intros Hlast Hm. unfold exec.
  rewrite (check_not_newer env s t Hm).
  - repeat split; reflexivity.
  - rewrite Hlast. apply Z.ltb_irrefl.
Qed.

Lemma unchanged_mtime_poll_is_a_no_op_witness :
  jobs (exec (check_config_changes
                (valid_env 10 demo_config ready_setup)) running_state)
  = jobs running_state
  /\ sched_jobs (exec (check_config_changes
                         (valid_env 10 demo_config ready_setup))
                   running_state)
     = sched_jobs running_state
  /\ config_last_modified
       (exec (check_config_changes (valid_env 10 demo_config ready_setup))
          running_state)
     = config_last_modified running_state
  /\ git_credentials
       (exec (check_config_changes (valid_env 10 demo_config ready_setup))
          running_state)
     = git_credentials running_state
  /\ genai_api_key
       (exec (check_config_changes (valid_env 10 demo_config ready_setup))
          running_state)
     = genai_api_key running_state
  /\ trace (exec (check_config_changes
                    (valid_env 10 demo_config ready_setup)) running_state)
     = trace running_state ++ [GetMTime config_file].
Proof.
  apply (unchanged_mtime_poll_is_a_no_op
           (valid_env 10 demo_config ready_setup) running_state 10);
    reflexivity.
Defined.

Example running_state_schedule :
  jobs running_state
  = [mkJob 0 (JInt 5) (CommitAndPush (JStr "/tmp/p") (JStr "demo"))]
  /\ sched_jobs running_state
     = [mkJob 0 (JInt 5) (CommitAndPush (JStr "/tmp/p") (JStr "demo"));
        mkJob 1 (JInt 1) CheckConfigChanges]
  /\ config_last_modified running_state = Some 10%Z.
Proof. repeat split; reflexivity. Qed.

Lemma filter_reload_of_projects (l : list job) :
  Forall (fun j => is_project_job j = true) l -> filter is_reload_job l = [].
Proof.
  induction 1 as [| x l Hx _ IH]; simpl; [reflexivity |].
  now rewrite reload_job_not_project, Hx.
Qed.

Lemma filter_twice (f : job -> bool) (l : list job) :
  filter f (filter f l) = filter f l.
Proof.
  induction l as [| x l IH]; simpl; [reflexivity |].
  destruct (f x) eqn:F; simpl; now rewrite ?F, IH.
Qed.

(** A poll keeps the jobs that are not project jobs, as they were. *)
Lemma poll_keeps_reload_jobs (env : poll_env) (s : state) :
  wf s ->
  filter is_reload_job (sched_jobs (exec (check_config_changes env) s))
  = filter is_reload_job (sched_jobs s).
Proof.
  intros W. destruct (detects env s) as [t |] eqn:D.
  - destruct (poll_shape env s t W D) as (new & _ & _ & Hs & _ & [_ Hp] & _).
    rewrite Hs, filter_app, filter_twice, (filter_reload_of_projects new Hp).
    apply app_nil_r.
  - destruct (check_undetected env s D) as [_ H].
    apply registry_untraced in H. unfold registry in H.
    injection H as _ _ Hs _. now rewrite Hs.
Qed.

(** Once [main] has started, the scheduler holds exactly one reload job. *)
Lemma reachable_one_reload_job (s : state) :
  reachable s ->
  exists n,
    filter is_reload_job (sched_jobs s)
    = [mkJob n (JInt 1) CheckConfigChanges].
Proof.
  induction 1 as [env | s s' R IH St].
  - rewrite main_startup_eq. cbn zeta.
    set (s := exec (check_config_changes env) initial_state).
    exists (next_id s). simpl. rewrite filter_app.
    unfold s. rewrite (poll_keeps_reload_jobs env _ wf_initial_state).
    reflexivity.
  - destruct IH as (n & IH). exists n.
    destruct St as [s j env _ _ | s f r env].
    + rewrite poll_keeps_reload_jobs; [exact IH | now apply reachable_wf].
    + pose proof (commit_and_push_untraced f r env s) as H.
      apply registry_untraced in H. unfold registry in H.
      injection H as _ _ Hs _. now rewrite Hs.
Qed.

Lemma reachable_running_state : reachable running_state.
Proof. apply reach_startup. Qed.

Lemma usable_failed_load (env : poll_env) :
  json_load_r env = Raises FileNotFoundError
  \/ json_load_r env = Raises JSONDecodeError ->
  usable env = None.
Proof. unfold usable, loaded. intros [-> | ->]; reflexivity. Qed.

(** C1: when a poll detects a newer modification time and the file then
    turns out missing or malformed, the module's job list is empty after
    the call and the scheduler holds no project job any more: it keeps only
    the reload job. *)
Theorem failed_load_empties_the_schedule
    (env : poll_env) (s : state) (t : Z) :
  reachable s ->
  detects env s = Some t ->
  json_load_r env = Raises FileNotFoundError
  \/ json_load_r env = Raises JSONDecodeError ->
  jobs (exec (check_config_changes env) s) = []
  /\ sched_jobs (exec (check_config_changes env) s)
     = filter is_reload_job (sched_jobs s)
  /\ filter is_project_job (sched_jobs (exec (check_config_changes env) s))
     = []
  /\ config_last_modified (exec (check_config_changes env) s) = Some t.
Proof.
  intros R D L.
  destruct (poll_shape env s t (reachable_wf s R) D)
    as (new & Hm & Hj & Hs & _ & _ & Hnone & _).
  rewrite (Hnone (usable_failed_load env L)) in *.
  rewrite app_nil_r in Hs. rewrite Hs.
  repeat split; auto. apply filter_none_project.
Qed.

Lemma failed_load_empties_the_schedule_witness :
  jobs (exec (check_config_changes (malformed_env 20)) running_state) = []
  /\ sched_jobs (exec (check_config_changes (malformed_env 20))
                   running_state)
     = filter is_reload_job (sched_jobs running_state)
  /\ filter is_project_job
       (sched_jobs (exec (check_config_changes (malformed_env 20))
                      running_state))
     = []
  /\ config_last_modified
       (exec (check_config_changes (malformed_env 20)) running_state)
     = Some 20%Z.
Proof.
  apply (failed_load_empties_the_schedule (malformed_env 20) running_state
           20 reachable_running_state).
  - reflexivity.
  - right. reflexivity.
Defined.

(** C9: a poll never removes the reload job, whatever it meets; and when it
    detects a change, no project job that was scheduled before the call is
    scheduled after it. *)
Theorem reload_job_survives_every_poll (env : poll_env) (s : state) :
  reachable s ->
  (forall r, In r (sched_jobs s) -> is_reload_job r = true ->
             In r (sched_jobs (exec (check_config_changes env) s)))
  /\ filter is_reload_job (sched_jobs (exec (check_config_changes env) s))
     = filter is_reload_job (sched_jobs s)
  /\ (forall t, detects env s = Some t ->
      forall j, In j (sched_jobs s) -> is_project_job j = true ->
                ~ In j (sched_jobs (exec (check_config_changes env) s))).
Proof.
  intros R. pose proof (reachable_wf s R) as W.
  pose proof (poll_keeps_reload_jobs env s W) as K.
  split; [| split; [exact K |]].
  - intros r Hr Hrel.
    assert (H : In r (filter is_reload_job
                        (sched_jobs (exec (check_config_changes env) s)))).
    { rewrite K. apply filter_In. auto. }
    apply filter_In in H. tauto.
  - intros t D j Hj Hp Hin.
    destruct (poll_shape env s t W D) as (new & _ & _ & Hs & _ & [Hid _] & _).
    rewrite Hs in Hin. apply in_app_or in Hin. destruct Hin as [Hin | Hin].
    + apply filter_In in Hin. destruct Hin as [_ Hrel].
      rewrite reload_job_not_project, Hp in Hrel. discriminate Hrel.
    + assert (Hn : In (job_id j) (map job_id new)) by now apply in_map.
      rewrite Hid in Hn. apply in_seq in Hn.
      destruct W as [_ Hc _]. rewrite Forall_forall in Hc.
      specialize (Hc j Hj). simpl in Hc. lia.
Qed.

Lemma reload_job_survives_every_poll_witness :
  (forall r, In r (sched_jobs running_state) -> is_reload_job r = true ->
             In r (sched_jobs
                     (exec (check_config_changes
                              (valid_env 20 demo_config ready_setup))
                        running_state)))
  /\ filter is_reload_job
       (sched_jobs (exec (check_config_changes
                            (valid_env 20 demo_config ready_setup))
                      running_state))
     = filter is_reload_job (sched_jobs running_state)
  /\ (forall t,
      detects (valid_env 20 demo_config ready_setup) running_state = Some t ->
      forall j, In j (sched_jobs running_state) ->
                is_project_job j = true ->
                ~ In j (sched_jobs
                          (exec (check_config_changes
                                   (valid_env 20 demo_config ready_setup))
                             running_state))).
Proof.
  apply (reload_job_survives_every_poll
           (valid_env 20 demo_config ready_setup) running_state
           reachable_running_state).
Defined.

Lemma usable_loaded (env : poll_env) (c : json) :
  json_load_r env = Returns c -> truthy c = true -> usable env = Some c.
Proof. unfold usable, loaded. intros -> ->. reflexivity. Qed.

Lemma falsy_config_has_no_projects (c : json) (items : list json) :
  truthy c = false -> projects_of c = Some items -> items = [].
Proof.
  destruct c as [| b | n | q | t | l | fields]; try discriminate.
  destruct fields; [| discriminate]. intros _ [= <-]. reflexivity.
Qed.

(** C3, as amended: after a successful reload the module's job list holds
    one project job for each entry whose setup ran to completion, in the
    order of the entries: N of them when every setup completes, fewer
    otherwise.  The scheduler holds these jobs and the one reload job. *)
Theorem successful_reload_registers_completed_setups
    (env : poll_env) (s : state) (t : Z) (c : json) (items : list json) :
  reachable s ->
  detects env s = Some t ->
  json_load_r env = Returns c ->
  projects_of c = Some items ->
  last_event (exec (check_config_changes env) s) = Some reloaded ->
  jobs (exec (check_config_changes env) s)
  = registered_jobs items 0 env (next_id s)
  /\ List.length (jobs (exec (check_config_changes env) s))
     = completed items 0 env
  /\ completed items 0 env <= List.length items
  /\ ((forall k p, nth_error items k = Some p ->
                   registers p (setup_r env k) = true) ->
      List.length (jobs (exec (check_config_changes env) s))
      = List.length items)
  /\ filter is_project_job (sched_jobs (exec (check_config_changes env) s))
     = jobs (exec (check_config_changes env) s)
  /\ List.length (sched_jobs (exec (check_config_changes env) s))
     = completed items 0 env + 1.
Proof.
  intros R D L P Hlast. pose proof (reachable_wf s R) as W.
  destruct (reachable_one_reload_job s R) as (n & Hone).
  destruct (poll_shape env s t W D)
    as (new & _ & Hj & Hs & _ & _ & Hnone & Hitems).
  assert (Hnew : new = registered_jobs items 0 env (next_id s)).
  { destruct (truthy c) eqn:T.
    - destruct (Hitems c items (usable_loaded env c L T) P)
        as (k & _ & Hk & Hd & _).
      rewrite (Hd Hlast), firstn_all in Hk. exact Hk.
    - rewrite (falsy_config_has_no_projects c items T P). simpl.
      apply Hnone. unfold usable, loaded. now rewrite L, T. }
  pose proof (wf_check_config_changes env s W) as [_ _ Hwf].
  rewrite Hnew in Hj, Hs. clear Hnew Hnone Hitems.
  rewrite Hone in Hs. rewrite Hj, Hs in Hwf. rewrite Hj, Hs.
  rewrite length_app, registered_jobs_length. simpl.
  split; [reflexivity |]. split; [reflexivity |].
  split; [apply completed_le_length |].
  split; [intros Hall; apply completed_all; exact Hall |].
  split; [symmetry; exact Hwf | lia].
Qed.

Lemma successful_reload_registers_completed_setups_witness :
  jobs (exec (check_config_changes (valid_env 20 demo_config ready_setup))
          running_state)
  = registered_jobs [demo_project] 0 (valid_env 20 demo_config ready_setup)
      (next_id running_state)
  /\ List.length
       (jobs (exec (check_config_changes
                      (valid_env 20 demo_config ready_setup))
                running_state))
     = completed [demo_project] 0 (valid_env 20 demo_config ready_setup)
  /\ completed [demo_project] 0 (valid_env 20 demo_config ready_setup)
     <= List.length [demo_project]
  /\ ((forall k p, nth_error [demo_project] k = Some p ->
                   registers p
                     (setup_r (valid_env 20 demo_config ready_setup) k)
                   = true) ->
      List.length
        (jobs (exec (check_config_changes
                       (valid_env 20 demo_config ready_setup))
                 running_state))
      = List.length [demo_project])
  /\ filter is_project_job
       (sched_jobs (exec (check_config_changes
                            (valid_env 20 demo_config ready_setup))
                      running_state))
     = jobs (exec (check_config_changes
                     (valid_env 20 demo_config ready_setup))
               running_state)
  /\ List.length
       (sched_jobs (exec (check_config_changes
                            (valid_env 20 demo_config ready_setup))
                      running_state))
     = completed [demo_project] 0 (valid_env 20 demo_config ready_setup) + 1.
Proof.
  apply (successful_reload_registers_completed_setups
           (valid_env 20 demo_config ready_setup) running_state 20
           demo_config [demo_project] reachable_running_state);
    reflexivity.
Defined.

(** C3, as written, fails: with one project entry whose remote URL cannot
    be resolved the reload succeeds and registers no project job. *)
Lemma every_entry_gets_a_task_counterexample :
  last_event (exec (check_config_changes
                      (valid_env 20 demo_config no_remote_setup))
                running_state)
  = Some reloaded
  /\ projects_of demo_config = Some [demo_project]
  /\ jobs (exec (check_config_changes
                   (valid_env 20 demo_config no_remote_setup))
             running_state)
     = []
  /\ sched_jobs (exec (check_config_changes
                         (valid_env 20 demo_config no_remote_setup))
                   running_state)
     = [mkJob 1 (JInt 1) CheckConfigChanges]
  /\ ~ every_entry_gets_a_task.
Proof.
  repeat split; try reflexivity.
  intros H.
  destruct (H running_state (valid_env 20 demo_config no_remote_setup) 20%Z
              demo_config [demo_project] reachable_running_state
              eq_refl eq_refl eq_refl eq_refl) as [H1 _].
  discriminate H1.
Qed.

Lemma not_newer_is_undetected (env : poll_env) (s : state) (t t2 : Z) :
  config_last_modified s = Some t ->
  getmtime_r env = Returns t2 ->
  (t2 <= t)%Z ->
  detects env s = None.
Proof.
  unfold detects. intros -> -> Hle. simpl.
  destruct (Z.ltb_spec t t2); [lia | reflexivity].
Qed.

Lemma newer_is_detected (env : poll_env) (s : state) (t t2 : Z) :
  config_last_modified s = Some t ->
  getmtime_r env = Returns t2 ->
  (t < t2)%Z ->
  detects env s = Some t2.
Proof.
  unfold detects. intros -> -> Hlt. simpl.
  destruct (Z.ltb_spec t t2); [reflexivity | lia].
Qed.

Lemma failed_load_marker (env : poll_env) (s : state) (t : Z) :
  reachable s ->
  detects env s = Some t ->
  config_last_modified (exec (check_config_changes env) s) = Some t.
Proof.
  intros R D.
  destruct (poll_shape env s t (reachable_wf s R) D) as (new & Hm & _).
  exact Hm.
Qed.

(** C2, as amended: when a reload fails because the file is missing or
    malformed, the marker already holds the detected time; a later poll
    that reads a time no newer than it changes nothing, and a poll that
    reads a newer time reloads. *)
Theorem failed_reload_waits_for_a_newer_mtime
    (env : poll_env) (s : state) (t : Z) :
  reachable s ->
  detects env s = Some t ->
  json_load_r env = Raises FileNotFoundError
  \/ json_load_r env = Raises JSONDecodeError ->
  config_last_modified (exec (check_config_changes env) s) = Some t
  /\ (forall next t2,
        getmtime_r next = Returns t2 -> (t2 <= t)%Z ->
        detects next (exec (check_config_changes env) s) = None
        /\ untraced (exec (check_config_changes next)
                       (exec (check_config_changes env) s))
           = untraced (exec (check_config_changes env) s))
  /\ (forall next t2,
        getmtime_r next = Returns t2 -> (t < t2)%Z ->
        detects next (exec (check_config_changes env) s) = Some t2).
Proof.
  intros R D L.
  pose proof (failed_load_marker env s t R D) as Hm.
  split; [exact Hm |]. split.
  - intros next t2 Hg Hle.
    pose proof (not_newer_is_undetected next _ t t2 Hm Hg Hle) as U.
    split; [exact U |]. now apply check_undetected.
  - intros next t2 Hg Hlt. now apply (newer_is_detected next _ t t2).
Qed.

Lemma failed_reload_waits_for_a_newer_mtime_witness :
  config_last_modified
    (exec (check_config_changes (malformed_env 20)) running_state)
  = Some 20%Z
  /\ (forall next t2,
        getmtime_r next = Returns t2 -> (t2 <= 20)%Z ->
        detects next
          (exec (check_config_changes (malformed_env 20)) running_state)
        = None
        /\ untraced
             (exec (check_config_changes next)
                (exec (check_config_changes (malformed_env 20))
                   running_state))
           = untraced
               (exec (check_config_changes (malformed_env 20))
                  running_state))
  /\ (forall next t2,
        getmtime_r next = Returns t2 -> (20 < t2)%Z ->
        detects next
          (exec (check_config_changes (malformed_env 20)) running_state)
        = Some t2).
Proof.
  apply (failed_reload_waits_for_a_newer_mtime (malformed_env 20)
           running_state 20 reachable_running_state).
  - reflexivity.
  - right. reflexivity.
Defined.

(** C2, as written, fails: after a valid start-up, a poll that finds the
    file changed and malformed leaves the job list empty, and the next poll
    at the same modification time does not reload, although the file is
    valid again. *)
Lemma failed_reload_keeps_schedule_and_retries_counterexample :
  jobs running_state
  = [mkJob 0 (JInt 5) (CommitAndPush (JStr "/tmp/p") (JStr "demo"))]
  /\ jobs (exec (check_config_changes (malformed_env 20)) running_state)
     = []
  /\ detects (valid_env 20 demo_config ready_setup)
       (exec (check_config_changes (malformed_env 20)) running_state)
     = None
  /\ jobs (exec (check_config_changes (valid_env 20 demo_config ready_setup))
             (exec (check_config_changes (malformed_env 20)) running_state))
     = []
  /\ ~ failed_reload_keeps_schedule_and_retries.
Proof.
  repeat split; try reflexivity.
  intros H.
  destruct (H running_state (malformed_env 20)
              (valid_env 20 demo_config ready_setup) 20%Z
              reachable_running_state eq_refl (or_intror eq_refl) eq_refl)
    as [H1 _].
  discriminate H1.
Qed.

Lemma nth_error_middle (pre post : list json) (p : json) :
  nth_error (pre ++ p :: post) (List.length pre) = Some p.
Proof.
  rewrite nth_error_app2 by lia. now rewrite Nat.sub_diag.
Qed.

Lemma firstn_middle (pre post : list json) (p : json) :
  firstn (List.length pre) (pre ++ p :: post) = pre.
Proof.
  rewrite firstn_app, Nat.sub_diag, firstn_all. simpl. apply app_nil_r.
Qed.

(** Where the loop stops when the entries before [p] return and [p]
    raises. *)
Lemma stops_at_the_raising_entry
    (env : poll_env) (pre post : list json) (p : json) (x : exn) (k : nat)
    (r : res unit) :
  (forall j q, nth_error pre j = Some q -> returns q (setup_r env j)) ->
  raises_with p (setup_r env (List.length pre)) x ->
  stops_at (pre ++ p :: post) 0 env k r ->
  k = List.length pre /\ r = Raised x.
Proof.
  intros Hpre Hraise [Hbefore Hat].
  assert (Hnot : ~ List.length pre < k).
  { intros Hlt.
    destruct (Hbefore (List.length pre) p Hlt (nth_error_middle pre post p))
      as (sj & Hsj).
    simpl in Hsj. rewrite (Hraise sj) in Hsj. discriminate Hsj. }
  destruct r as [u | x'].
  - exfalso. apply Hnot. rewrite Hat, length_app. simpl. lia.
  - destruct Hat as (q & sk & Hq & Hsk). simpl in Hsk.
    destruct (Nat.lt_trichotomy k (List.length pre)) as [Hlt | [-> | Hgt]].
    + rewrite nth_error_app1 in Hq by exact Hlt.
      rewrite (Hpre k q Hq sk) in Hsk. discriminate Hsk.
    + rewrite nth_error_middle in Hq. injection Hq as <-.
      rewrite (Hraise sk) in Hsk. injection Hsk as <-. auto.
    + contradiction.
Qed.

(** C10: when [sync_project] raises on an entry of a freshly loaded
    configuration, [check_config_changes] still returns, having logged the
    exception; the jobs are those of the entries before it, none of the
    later entries is registered; the marker holds the detected time, so a
    later poll registers nothing until it reads a newer time.  The state
    [s] is any state with the invariant [wf]: the initial one, from which
    [main] polls first, and every state reached later. *)
Theorem failed_registration_is_not_retried
    (env : poll_env) (s : state) (t : Z) (c : json)
    (pre post : list json) (p : json) (x : exn) :
  wf s ->
  detects env s = Some t ->
  json_load_r env = Returns c ->
  truthy c = true ->
  git_configure_r env = Returns tt ->
  genai_configure_r env = Returns tt ->
  projects_of c = Some (pre ++ p :: post) ->
  (forall j q, nth_error pre j = Some q -> returns q (setup_r env j)) ->
  raises_with p (setup_r env (List.length pre)) x ->
  fst (check_config_changes env s) = Done tt
  /\ last_event (exec (check_config_changes env) s) = Some (handler_line x)
  /\ jobs (exec (check_config_changes env) s)
     = registered_jobs pre 0 env (next_id s)
  /\ sched_jobs (exec (check_config_changes env) s)
     = filter is_reload_job (sched_jobs s)
       ++ registered_jobs pre 0 env (next_id s)
  /\ config_last_modified (exec (check_config_changes env) s) = Some t
  /\ (forall next t2,
        getmtime_r next = Returns t2 -> (t2 <= t)%Z ->
        untraced (exec (check_config_changes next)
                    (exec (check_config_changes env) s))
        = untraced (exec (check_config_changes env) s))
  /\ (forall next t2,
        getmtime_r next = Returns t2 -> (t < t2)%Z ->
        detects next (exec (check_config_changes env) s) = Some t2).
Proof.
  intros W D L T G1 G2 P Hpre Hraise.
  destruct (poll_shape env s t W D)
    as (new & Hm & Hj & Hs & _ & _ & _ & Hitems).
  destruct (Hitems c _ (usable_loaded env c L T) P)
    as (k & _ & Hnew & _ & Hstop).
  destruct (stops_at_the_raising_entry env pre post p x k _ Hpre Hraise
              (Hstop G1 G2)) as [-> Hr].
  rewrite firstn_middle in Hnew. rewrite Hnew in Hj, Hs.
  split; [apply check_config_changes_returns |].
  split.
  { unfold exec. rewrite (check_detected env s t D).
    destruct (reload t env (polled s)) as [r s3]. simpl in Hr. subst r.
    apply last_event_add_event. }
  split; [exact Hj |]. split; [exact Hs |]. split; [exact Hm |].
  split.
  - intros next t2 Hg Hle.
    apply check_undetected.
    now apply (not_newer_is_undetected next _ t t2).
  - intros next t2 Hg Hlt. now apply (newer_is_detected next _ t t2).
Qed.

Lemma broken_project_raises (e : setup_env) :
  raises_with broken_project e (KeyError "interval").
Proof. intros s. reflexivity. Qed.

Lemma failed_registration_is_not_retried_witness :
  fst (check_config_changes (valid_env 20 broken_config ready_setup)
         running_state) = Done tt
  /\ last_event (exec (check_config_changes
                         (valid_env 20 broken_config ready_setup))
                   running_state)
     = Some (handler_line (KeyError "interval"))
  /\ jobs (exec (check_config_changes
                   (valid_env 20 broken_config ready_setup)) running_state)
     = registered_jobs [] 0 (valid_env 20 broken_config ready_setup)
         (next_id running_state)
  /\ sched_jobs (exec (check_config_changes
                         (valid_env 20 broken_config ready_setup))
                   running_state)
     = filter is_reload_job (sched_jobs running_state)
       ++ registered_jobs [] 0 (valid_env 20 broken_config ready_setup)
            (next_id running_state)
  /\ config_last_modified
       (exec (check_config_changes (valid_env 20 broken_config ready_setup))
          running_state)
     = Some 20%Z
  /\ (forall next t2,
        getmtime_r next = Returns t2 -> (t2 <= 20)%Z ->
        untraced
          (exec (check_config_changes next)
             (exec (check_config_changes
                      (valid_env 20 broken_config ready_setup))
                running_state))
        = untraced
            (exec (check_config_changes
                     (valid_env 20 broken_config ready_setup))
               running_state))
  /\ (forall next t2,
        getmtime_r next = Returns t2 -> (20 < t2)%Z ->
        detects next
          (exec (check_config_changes
                   (valid_env 20 broken_config ready_setup)) running_state)
        = Some t2).
Proof.
  apply (failed_registration_is_not_retried
           (valid_env 20 broken_config ready_setup) running_state 20
           broken_config [] [demo_project] broken_project
           (KeyError "interval")
           (reachable_wf running_state reachable_running_state));
    try reflexivity.
  - intros [| j] q Hq; discriminate Hq.
  - apply broken_project_raises.
Defined.

(** The same poll, spelled out: the valid second entry is not registered
    and the scheduler is left with the reload job alone. *)
Example broken_config_poll :
  jobs (exec (check_config_changes (valid_env 20 broken_config ready_setup))
          running_state) = []
  /\ sched_jobs (exec (check_config_changes
                         (valid_env 20 broken_config ready_setup))
                   running_state)
     = [mkJob 1 (JInt 1) CheckConfigChanges]
  /\ registers demo_project ready_setup = true.
Proof. repeat split; reflexivity. Qed.

(** * Further properties *)

(** ** The commit-and-push cycle, whatever the world answers *)

Lemma prefix_iff (n h : string) :
  String.prefix n h = true <-> exists b, h = (n ++ b)%string.
Proof.
  revert h. induction n as [| c n IH]; intros h; simpl.
  - split; [intros _; exists h; reflexivity |].
    intros _. destruct h; reflexivity.
  - destruct h as [| c' h]; simpl.
    + split; [discriminate | intros [b Hb]; discriminate Hb].
    + destruct (ascii_dec c c') as [<- | Hne].
      * rewrite IH. split; intros [b Hb]; exists b; congruence.
      * split; [discriminate |]. intros [b Hb]. congruence.
Qed.

(** [str_in] is the substring test. *)
Lemma str_in_iff (n h : string) :
  str_in n h = true <-> exists a b, h = (a ++ n ++ b)%string.
Proof.
  induction h as [| c h IH].
  - cbn [str_in]. destruct (String.prefix n "") eqn:P.
    + split; [intros _ | reflexivity].
      apply prefix_iff in P. destruct P as [b Hb]. exists "", b. exact Hb.
    + split; [discriminate |]. intros (a & b & H).
      destruct a; simpl in H; [| discriminate H].
      assert (String.prefix n "" = true) by (apply prefix_iff; eauto).
      congruence.
  - cbn [str_in]. destruct (String.prefix n (String c h)) eqn:P.
    + split; [intros _ | reflexivity].
      apply prefix_iff in P. destruct P as [b Hb]. exists "", b. exact Hb.
    + rewrite IH. split.
      * intros (a & b & ->). exists (String c a), b. reflexivity.
      * intros (a & b & H). destruct a as [| c' a]; simpl in H.
        -- assert (String.prefix n (String c h) = true)
             by (apply prefix_iff; eauto).
           congruence.
        -- injection H as _ ->. eauto.
Qed.

(** X1: a cycle never raises and never touches the schedule, the marker, the
    configuration or the credentials: all it leaves is its trace. *)
Theorem cycle_is_contained
    (folder_path repo_name : json) (env : cycle_env) (s : state) :
  fst (commit_and_push folder_path repo_name env s) = Done tt
  /\ untraced (exec (commit_and_push folder_path repo_name env) s)
     = untraced s.
Proof.
  run_cycle.
  destruct (git_add_r env) as [[|] | ?]; simpl; try (split; reflexivity).
  destruct (get_git_diff_r env) as [[d |] | ?]; simpl;
    try (split; reflexivity).
  destruct (negb (d =? "")); simpl; try (split; reflexivity).
  destruct (generate_commit_message_r env) as [g | ?]; simpl;
    try (split; reflexivity).
  destruct (truthy_text g); simpl;
    (destruct (str_in SYNTAX_ERROR (message_or_fallback g)); simpl;
     try (split; reflexivity);
     destruct (git_commit_r env) as [[|] | ?]; simpl;
     try (split; reflexivity);
     destruct (git_pull_r env) as [[|] | ?]; simpl; try (split; reflexivity);
     destruct (git_push_r env) as [[|] | ?]; simpl; split; reflexivity).
Qed.

Ltac close_cycle Hdone :=
  eapply Hdone; [tidy_trace; reflexivity |];
  unfold count_of; simpl;
  repeat split; intros; first [lia | reflexivity | discriminate].

(** X2: in any cycle commit, pull and push are each called at most once, and in
    that order of dependence: commit only after a successful add, pull only
    after a successful commit, push only after a successful pull. *)
Theorem push_needs_commit_and_pull
    (folder_path repo_name : json) (env : cycle_env) (s : state) :
  exists evs,
    trace (exec (commit_and_push folder_path repo_name env) s)
      = trace s ++ evs
    /\ count_of is_commit evs <= 1
    /\ count_of is_pull evs <= 1
    /\ count_of is_push evs <= 1
    /\ (count_of is_commit evs = 1 -> git_add_r env = Returns true)
    /\ (count_of is_pull evs = 1 -> git_commit_r env = Returns true)
    /\ (count_of is_push evs = 1 -> git_pull_r env = Returns true).
Proof.
  assert (Hdone : forall evs,
             trace (exec (commit_and_push folder_path repo_name env) s)
               = trace s ++ evs ->
             count_of is_commit evs <= 1
             /\ count_of is_pull evs <= 1
             /\ count_of is_push evs <= 1
             /\ (count_of is_commit evs = 1 -> git_add_r env = Returns true)
             /\ (count_of is_pull evs = 1 -> git_commit_r env = Returns true)
             /\ (count_of is_push evs = 1 -> git_pull_r env = Returns true)
             ->
             exists evs,
               trace (exec (commit_and_push folder_path repo_name env) s)
                 = trace s ++ evs
               /\ count_of is_commit evs <= 1
               /\ count_of is_pull evs <= 1
               /\ count_of is_push evs <= 1
               /\ (count_of is_commit evs = 1 ->
                   git_add_r env = Returns true)
               /\ (count_of is_pull evs = 1 ->
                   git_commit_r env = Returns true)
               /\ (count_of is_push evs = 1 ->
                   git_pull_r env = Returns true)).
  { intros evs H1 H2. exists evs. split; assumption. }
  revert Hdone. run_cycle. intros Hdone.
  destruct (git_add_r env) as [[|] | ?] eqn:Ha; simpl in *;
    try solve [close_cycle Hdone].
  destruct (get_git_diff_r env) as [[d |] | ?]; simpl in *;
    try solve [close_cycle Hdone].
  destruct (negb (d =? "")); simpl in *; try solve [close_cycle Hdone].
  destruct (generate_commit_message_r env) as [g | ?]; simpl in *;
    try solve [close_cycle Hdone].
  destruct (truthy_text g); simpl in *;
    (destruct (str_in SYNTAX_ERROR (message_or_fallback g)); simpl in *;
     try solve [close_cycle Hdone];
     destruct (git_commit_r env) as [[|] | ?]; simpl in *;
     try solve [close_cycle Hdone];
     destruct (git_pull_r env) as [[|] | ?]; simpl in *;
     try solve [close_cycle Hdone];
     destruct (git_push_r env) as [[|] | ?]; simpl in *;
     solve [close_cycle Hdone]).
Qed.

(** X3: when [git add] fails, by its result or by an exception, the cycle stops
    there: the diff is not computed, no message is generated, nothing is
    committed. *)
Theorem failed_add_ends_the_cycle
    (folder_path repo_name : json) (env : cycle_env) (s : state) :
  fails (git_add_r env) ->
  exists line,
    trace (exec (commit_and_push folder_path repo_name env) s)
      = trace s ++ [GitAdd folder_path; line]
    /\ is_error_log line = true.
Proof.
  intros [H | [x H]]; run_cycle; rewrite H; simpl;
    eexists; (split; [tidy_trace; reflexivity | reflexivity]).
Qed.

Lemma failed_add_ends_the_cycle_witness :
  exists line,
    trace (exec (commit_and_push (JStr "/tmp/p") (JStr "demo")
                   failing_add_env) initial_state)
      = trace initial_state ++ [GitAdd (JStr "/tmp/p"); line]
    /\ is_error_log line = true.
Proof.
  apply (failed_add_ends_the_cycle (JStr "/tmp/p") (JStr "demo")
           failing_add_env initial_state).
  left. reflexivity.
Defined.

(** X4: when every step succeeds and the generated message is not empty and
    free of the marker, the cycle commits with exactly that message, then
    pulls, then pushes. *)
Theorem smooth_cycle_commits_pulls_pushes
    (folder_path repo_name : json) (env : cycle_env) (s : state)
    (d m : string) :
  git_add_r env = Returns true ->
  get_git_diff_r env = Returns (Some d) ->
  d <> "" ->
  generate_commit_message_r env = Returns (Some m) ->
  m <> "" ->
  str_in SYNTAX_ERROR m = false ->
  git_commit_r env = Returns true ->
  git_pull_r env = Returns true ->
  git_push_r env = Returns true ->
  trace (exec (commit_and_push folder_path repo_name env) s)
  = trace s ++
    [GitAdd folder_path; GetGitDiff folder_path; GenerateCommitMessage d;
     Log INFO "Commit message: {commit_message}" [AText m];
     GitCommit folder_path m;
     GitPull folder_path;
     Log INFO "Cambios bajados del repositorio {repo_name}" [AVal repo_name];
     GitPush folder_path;
     Log INFO "Cambios subidos al repositorio {repo_name}" [AVal repo_name]].
Proof.
  intros Ha Hd Hdne Hg Hmne Hmark Hc Hp Hu.
  apply String.eqb_neq in Hdne. apply String.eqb_neq in Hmne.
  run_cycle. rewrite Ha. simpl. rewrite Hd. simpl. rewrite Hdne. simpl.
  rewrite Hg. simpl. rewrite Hmne. simpl. rewrite Hmark. simpl.
  rewrite Hc. simpl. rewrite Hp. simpl. rewrite Hu. simpl.
  tidy_trace. reflexivity.
Qed.

Lemma smooth_cycle_commits_pulls_pushes_witness :
  trace (exec (commit_and_push (JStr "/tmp/p") (JStr "demo")
                 (smooth_env "+x" "Add x")) initial_state)
  = trace initial_state ++
    [GitAdd (JStr "/tmp/p"); GetGitDiff (JStr "/tmp/p");
     GenerateCommitMessage "+x";
     Log INFO "Commit message: {commit_message}" [AText "Add x"];
     GitCommit (JStr "/tmp/p") "Add x";
     GitPull (JStr "/tmp/p");
     Log INFO "Cambios bajados del repositorio {repo_name}"
         [AVal (JStr "demo")];
     GitPush (JStr "/tmp/p");
     Log INFO "Cambios subidos al repositorio {repo_name}"
         [AVal (JStr "demo")]].
Proof.
  apply (smooth_cycle_commits_pulls_pushes (JStr "/tmp/p") (JStr "demo")
           (smooth_env "+x" "Add x") initial_state "+x" "Add x");
    try reflexivity; discriminate.
Defined.

(** X5: with a non-empty diff and a non-empty generated message, the cycle
    calls [git_commit] exactly when the marker occurs nowhere in the
    message: a message that merely mentions SYNTAX_ERROR is refused too. *)
Theorem commit_iff_no_marker_anywhere
    (folder_path repo_name : json) (env : cycle_env) (s : state)
    (d m : string) :
  git_add_r env = Returns true ->
  get_git_diff_r env = Returns (Some d) ->
  d <> "" ->
  generate_commit_message_r env = Returns (Some m) ->
  m <> "" ->
  exists evs,
    trace (exec (commit_and_push folder_path repo_name env) s)
      = trace s ++ evs
    /\ (count_of is_commit evs = 0
        <-> exists a b, m = (a ++ SYNTAX_ERROR ++ b)%string).
Proof.
  intros Ha Hd Hdne Hg Hmne.
  apply String.eqb_neq in Hdne. apply String.eqb_neq in Hmne.
  pose proof (str_in_iff SYNTAX_ERROR m) as Hin.
  run_cycle. rewrite Ha. simpl. rewrite Hd. simpl. rewrite Hdne. simpl.
  rewrite Hg. simpl. rewrite Hmne. simpl.
  destruct (str_in SYNTAX_ERROR m) eqn:Hm; simpl.
  - eexists. split; [tidy_trace; reflexivity |].
    unfold count_of. simpl. split; [intros _; now apply Hin | reflexivity].
  - assert (Hno : ~ exists a b, m = (a ++ SYNTAX_ERROR ++ b)%string).
    { intros H. apply Hin in H. discriminate H. }
    destruct (git_commit_r env) as [[|] | ?]; simpl;
      [ destruct (git_pull_r env) as [[|] | ?]; simpl;
        [ destruct (git_push_r env) as [[|] | ?]; simpl | | ]
      | | ];
      eexists; (split; [tidy_trace; reflexivity |]);
      unfold count_of; simpl; (split; [discriminate | contradiction]).
Qed.

Lemma commit_iff_no_marker_anywhere_witness :
  exists evs,
    trace (exec (commit_and_push (JStr "/tmp/p") (JStr "demo")
                   (smooth_env "+x" "Handle SYNTAX_ERROR in the parser"))
             initial_state)
      = trace initial_state ++ evs
    /\ (count_of is_commit evs = 0
        <-> exists a b,
              "Handle SYNTAX_ERROR in the parser"
              = (a ++ SYNTAX_ERROR ++ b)%string).
Proof.
  apply (commit_iff_no_marker_anywhere (JStr "/tmp/p") (JStr "demo")
           (smooth_env "+x" "Handle SYNTAX_ERROR in the parser")
           initial_state "+x" "Handle SYNTAX_ERROR in the parser");
    try reflexivity; discriminate.
Defined.

(** ** The setup sequence, step by step *)

Lemma sync_project_fields (p f r i : json) (e : setup_env) (s : state) :
  project_fields p = Some (f, r, i) ->
  sync_project p e s
  = setup_and_register f r i (private_of p) e (add_event (syncing r f) s).
Proof.
  unfold project_fields. destruct p as [| | | | | | fields]; try discriminate.
  destruct (assoc "folder_path" fields) as [f' |] eqn:Hf; [| discriminate].
  destruct (assoc "repo_name" fields) as [r' |] eqn:Hr; [| discriminate].
  destruct (assoc "interval" fields) as [i' |] eqn:Hi; [| discriminate].
  intros [= <- <- <-]. now apply sync_project_eq.
Qed.

Ltac run_setup :=
  cbv [exec setup_and_register init_repository ensure_remote_repo
       ensure_origin register_job schedule_every_do path_join_git
       try_except bind call logging emit update read ret raise
       negb truthy_text fst snd].

(** X6: an entry that is no dict, or lacks one of [folder_path], [repo_name]
    and [interval], makes [sync_project] raise at once: nothing is logged,
    no command is run, the state is as it was. *)
Theorem entry_without_its_keys_raises_at_once
    (p : json) (e : setup_env) (s : state) :
  project_fields p = None ->
  snd (sync_project p e s) = s
  /\ ((fst (sync_project p e s) = Raised TypeError
       /\ forall fields, p <> JObj fields)
      \/ exists fields key,
           p = JObj fields
           /\ In key ["folder_path"; "repo_name"; "interval"]
           /\ assoc key fields = None
           /\ fst (sync_project p e s) = Raised (KeyError key)).
Proof.
  unfold project_fields, sync_project, subscript.
  destruct p as [| b | n | q | t | l | fields];
    try (intros _; split; [reflexivity |]; left;
         split; [reflexivity | discriminate]).
  destruct (assoc "folder_path" fields) as [f |] eqn:Hf.
  - destruct (assoc "repo_name" fields) as [r |] eqn:Hr.
    + destruct (assoc "interval" fields) as [i |] eqn:Hi; [discriminate |].
      intros _. split; [reflexivity |]. right.
      exists fields, "interval". simpl. auto 6.
    + intros _. split; [reflexivity |]. right.
      exists fields, "repo_name". simpl. auto 6.
  - intros _. split; [reflexivity |]. right.
    exists fields, "folder_path". simpl. auto 6.
Qed.

Lemma entry_without_its_keys_raises_at_once_witness :
  snd (sync_project broken_project ready_setup initial_state) = initial_state
  /\ ((fst (sync_project broken_project ready_setup initial_state)
       = Raised TypeError
       /\ forall fields, broken_project <> JObj fields)
      \/ exists fields key,
           broken_project = JObj fields
           /\ In key ["folder_path"; "repo_name"; "interval"]
           /\ assoc key fields = None
           /\ fst (sync_project broken_project ready_setup initial_state)
              = Raised (KeyError key)).
Proof.
  apply (entry_without_its_keys_raises_at_once broken_project ready_setup
           initial_state).
  reflexivity.
Defined.

(** X7: a [folder_path] that is no string makes [sync_project] raise a
    TypeError right after its first log line, before any command. *)
Theorem folder_must_be_a_path
    (p f r i : json) (e : setup_env) (s : state) :
  project_fields p = Some (f, r, i) ->
  is_path f = false ->
  sync_project p e s = (Raised TypeError, add_event (syncing r f) s).
Proof.
  intros Hp Hf. rewrite (sync_project_fields p f r i e s Hp).
  destruct f; try discriminate Hf; reflexivity.
Qed.

Lemma folder_must_be_a_path_witness :
  sync_project numbered_folder_project ready_setup initial_state
  = (Raised TypeError,
     add_event (syncing (JStr "demo") (JInt 7)) initial_state).
Proof.
  apply (folder_must_be_a_path numbered_folder_project (JInt 7)
           (JStr "demo") (JInt 5) ready_setup initial_state);
    reflexivity.
Defined.

(** X8: a repository that is already there, with its remote and its origin:
    the setup runs the two probes and resolves the URL, changes nothing,
    and registers the job. *)
Theorem existing_repository_is_only_probed
    (p r i : json) (f url : string) (e : setup_env) (s : state) :
  project_fields p = Some (JStr f, r, i) ->
  has_git_dir e = true ->
  get_remote_url_r e = Returns (Some url) ->
  url <> "" ->
  ls_remote_r e = Returns tt ->
  remote_get_url_origin_r e = Returns tt ->
  every_do_refusal e = None ->
  fst (sync_project p e s) = Done tt
  /\ trace (exec (sync_project p e) s)
     = trace s ++
       [syncing r (JStr f); GetRemoteUrl r; LsRemote url (JStr f);
        RemoteGetUrlOrigin (JStr f); scheduled r i]
  /\ jobs (exec (sync_project p e) s)
     = jobs s ++ [mkJob (next_id s) i (CommitAndPush (JStr f) r)]
  /\ sched_jobs (exec (sync_project p e) s)
     = sched_jobs s ++ [mkJob (next_id s) i (CommitAndPush (JStr f) r)].
Proof.
  intros Hp Hg Hu Hne Hl Ho Ha. apply String.eqb_neq in Hne.
  unfold exec. rewrite (sync_project_fields p _ r i e s Hp).
  run_setup. rewrite Hg, Hu, Hne, Hl, Ho, Ha. cbn.
  rewrite <- !app_assoc. repeat split; reflexivity.
Qed.

Lemma existing_repository_is_only_probed_witness :
  fst (sync_project demo_project ready_setup initial_state) = Done tt
  /\ trace (exec (sync_project demo_project ready_setup) initial_state)
     = trace initial_state ++
       [syncing (JStr "demo") (JStr "/tmp/p"); GetRemoteUrl (JStr "demo");
        LsRemote "https://github.com/u/demo.git" (JStr "/tmp/p");
        RemoteGetUrlOrigin (JStr "/tmp/p"); scheduled (JStr "demo") (JInt 5)]
  /\ jobs (exec (sync_project demo_project ready_setup) initial_state)
     = jobs initial_state
       ++ [mkJob (next_id initial_state) (JInt 5)
             (CommitAndPush (JStr "/tmp/p") (JStr "demo"))]
  /\ sched_jobs (exec (sync_project demo_project ready_setup) initial_state)
     = sched_jobs initial_state
       ++ [mkJob (next_id initial_state) (JInt 5)
             (CommitAndPush (JStr "/tmp/p") (JStr "demo"))].
Proof.
  apply (existing_repository_is_only_probed demo_project (JStr "demo")
           (JInt 5) "/tmp/p" "https://github.com/u/demo.git" ready_setup
           initial_state);
    try reflexivity; discriminate.
Defined.

(** X9: an empty folder whose remote does not exist: the setup initialises the
    repository, turns on rebase on pull, creates the remote repository with
    the entry's [private] value ([False] when the key is absent), adds
    [origin], and registers the job. *)
Theorem fresh_folder_is_set_up
    (p r i : json) (f url : string) (e : setup_env) (s : state) :
  project_fields p = Some (JStr f, r, i) ->
  has_git_dir e = false ->
  git_init_r e = Returns true ->
  git_config_pull_rebase_r e = Returns true ->
  get_remote_url_r e = Returns (Some url) ->
  url <> "" ->
  ls_remote_r e = Raises CalledProcessError ->
  create_github_repo_r e = Returns true ->
  remote_get_url_origin_r e = Raises CalledProcessError ->
  remote_add_origin_r e = Returns true ->
  every_do_refusal e = None ->
  trace (exec (sync_project p e) s)
  = trace s ++
    [syncing r (JStr f);
     Log INFO "Inicializando repositorio Git en {folder_path}"
         [AVal (JStr f)];
     GitInit (JStr f); GitConfigPullRebase (JStr f);
     GetRemoteUrl r; LsRemote url (JStr f);
     Log INFO "El repositorio remoto {remote_url} no existe. Creando..."
         [AText url];
     CreateGithubRepo r (private_of p);
     RemoteGetUrlOrigin (JStr f);
     Log INFO "Agregando remoto 'origin' a {remote_url}" [AText url];
     RemoteAddOrigin url (JStr f);
     scheduled r i]
  /\ jobs (exec (sync_project p e) s)
     = jobs s ++ [mkJob (next_id s) i (CommitAndPush (JStr f) r)].
Proof.
  intros Hp Hg Hi Hc Hu Hne Hl Hcr Ho Hadd Ha.
  apply String.eqb_neq in Hne.
  unfold exec. rewrite (sync_project_fields p _ r i e s Hp).
  run_setup. rewrite Hg, Hi, Hc, Hu, Hne, Hl, Hcr, Ho, Hadd, Ha. cbn.
  rewrite <- !app_assoc. split; reflexivity.
Qed.

Lemma fresh_folder_is_set_up_witness :
  trace (exec (sync_project private_project fresh_setup) initial_state)
  = trace initial_state ++
    [syncing (JStr "demo") (JStr "/tmp/p");
     Log INFO "Inicializando repositorio Git en {folder_path}"
         [AVal (JStr "/tmp/p")];
     GitInit (JStr "/tmp/p"); GitConfigPullRebase (JStr "/tmp/p");
     GetRemoteUrl (JStr "demo");
     LsRemote "https://github.com/u/demo.git" (JStr "/tmp/p");
     Log INFO "El repositorio remoto {remote_url} no existe. Creando..."
         [AText "https://github.com/u/demo.git"];
     CreateGithubRepo (JStr "demo") (private_of private_project);
     RemoteGetUrlOrigin (JStr "/tmp/p");
     Log INFO "Agregando remoto 'origin' a {remote_url}"
         [AText "https://github.com/u/demo.git"];
     RemoteAddOrigin "https://github.com/u/demo.git" (JStr "/tmp/p");
     scheduled (JStr "demo") (JInt 5)]
  /\ jobs (exec (sync_project private_project fresh_setup) initial_state)
     = jobs initial_state
       ++ [mkJob (next_id initial_state) (JInt 5)
             (CommitAndPush (JStr "/tmp/p") (JStr "demo"))].
Proof.
  apply (fresh_folder_is_set_up private_project (JStr "demo") (JInt 5)
           "/tmp/p" "https://github.com/u/demo.git" fresh_setup
           initial_state);
    try reflexivity; discriminate.
Defined.

Example private_defaults_to_false :
  private_of demo_project = JBool false
  /\ private_of private_project = JBool true.
Proof. split; reflexivity. Qed.





(** X12: [sync_project] adds one job, to the module's list and to the
    scheduler's, exactly when the setup completes; the job carries the
    entry's interval and closes over its folder and repository name.  In
    every other case, early return or exception, both lists are as they
    were.  The marker, the configuration and the credentials are never
    touched. *)
Theorem sync_project_registers_iff_setup_completes
    (p : json) (e : setup_env) (s : state) :
  (registers p e = true ->
   fst (sync_project p e s) = Done tt
   /\ jobs (exec (sync_project p e) s)
      = jobs s ++ [project_job (next_id s) p]
   /\ sched_jobs (exec (sync_project p e) s)
      = sched_jobs s ++ [project_job (next_id s) p])
  /\ (registers p e = false ->
      jobs (exec (sync_project p e) s) = jobs s
      /\ sched_jobs (exec (sync_project p e) s) = sched_jobs s)
  /\ config_last_modified (exec (sync_project p e) s)
     = config_last_modified s
  /\ config (exec (sync_project p e) s) = config s
  /\ git_credentials (exec (sync_project p e) s) = git_credentials s
  /\ genai_api_key (exec (sync_project p e) s) = genai_api_key s.
Proof.
  pose proof (sync_project_cases p e s) as C. unfold exec.
  destruct (registers p e).
  - destruct C as [C1 C2].
    pose proof (f_equal jobs C2) as Hj.
    pose proof (f_equal sched_jobs C2) as Hs.
    pose proof (f_equal config_last_modified C2) as Hm.
    pose proof (f_equal config C2) as Hc.
    pose proof (f_equal git_credentials C2) as Hg.
    pose proof (f_equal genai_api_key C2) as Hk.
    simpl in Hj, Hs, Hm, Hc, Hg, Hk.
    repeat split; auto; discriminate.
  - pose proof (f_equal jobs C) as Hj.
    pose proof (f_equal sched_jobs C) as Hs.
    pose proof (f_equal config_last_modified C) as Hm.
    pose proof (f_equal config C) as Hc.
    pose proof (f_equal git_credentials C) as Hg.
    pose proof (f_equal genai_api_key C) as Hk.
    simpl in Hj, Hs, Hm, Hc, Hg, Hk.
    repeat split; auto; discriminate.
Qed.

Lemma sync_project_without_fields (p : json) (e : setup_env) (s : state) :
  project_fields p = None -> snd (sync_project p e s) = s.
Proof.
  unfold project_fields, sync_project, subscript.
  destruct p as [| b | n | q | t | l | fields]; try reflexivity.
  destruct (assoc "folder_path" fields); [| reflexivity].
  destruct (assoc "repo_name" fields); [| reflexivity].
  destruct (assoc "interval" fields); [discriminate | reflexivity].
Qed.

Ltac close_setup :=
  eexists;
  split;
  [ cbn; rewrite <- ?app_assoc; reflexivity
  | unfold count_of; cbn;
    repeat split; intros; first [reflexivity | congruence | lia] ].

(** X13: the setup changes only what is missing: it never runs [git init] in a
    folder that has its [.git], never creates a remote repository unless
    the probe exited non-zero, never adds [origin] unless reading it exited
    non-zero; and it does each of them at most once. *)
Theorem setup_changes_only_what_is_missing
    (p : json) (e : setup_env) (s : state) :
  exists evs,
    trace (exec (sync_project p e) s) = trace s ++ evs
    /\ (has_git_dir e = true -> count_of is_git_init evs = 0)
    /\ (ls_remote_r e <> Raises CalledProcessError ->
        count_of is_create_repo evs = 0)
    /\ (remote_get_url_origin_r e <> Raises CalledProcessError ->
        count_of is_add_origin evs = 0)
    /\ count_of is_create_repo evs <= 1
    /\ count_of is_add_origin evs <= 1.
Proof.
  unfold exec. destruct (project_fields p) as [[[f r] i] |] eqn:Hp.
  2: { rewrite (sync_project_without_fields p e s Hp). exists [].
       rewrite app_nil_r. unfold count_of. simpl.
       repeat split; intros; first [reflexivity | lia]. }
  rewrite (sync_project_fields p f r i e s Hp). run_setup.
  destruct f as [| | | | f | |]; try solve [close_setup].
  destruct (has_git_dir e);
    [ | destruct (git_init_r e) as [[|] | ?]; try solve [close_setup];
        destruct (git_config_pull_rebase_r e) as [[|] | ?];
        try solve [close_setup] ];
    (destruct (get_remote_url_r e) as [[u |] | ?]; try solve [close_setup];
     destruct (u =? "")%string; try solve [close_setup];
     (destruct (ls_remote_r e) as [[] | x];
      [ | destruct x; try solve [close_setup];
          destruct (create_github_repo_r e) as [[|] | ?];
          try solve [close_setup] ]);
     (destruct (remote_get_url_origin_r e) as [[] | x];
      [ | destruct x; try solve [close_setup];
          destruct (remote_add_origin_r e) as [[|] | ?];
          try solve [close_setup] ]);
     destruct (every_do_refusal e); solve [close_setup]).
Qed.

(** ** [load_config] and the poll, case by case *)

Lemma untraced_fields (a b : state) :
  untraced a = untraced b ->
  config_last_modified a = config_last_modified b
  /\ jobs a = jobs b
  /\ sched_jobs a = sched_jobs b
  /\ next_id a = next_id b
  /\ config a = config b
  /\ git_credentials a = git_credentials b
  /\ genai_api_key a = genai_api_key b.
Proof.
  destruct a, b. unfold untraced. simpl.
  intros [= -> -> -> -> -> -> ->]. repeat split.
Qed.

(** X14: [load_config] turns a missing and a malformed file into [None], with an
    error line; every other exception passes through it.  It changes
    nothing but the trace. *)
Theorem load_config_absorbs_missing_and_malformed
    (env : poll_env) (s : state) :
  untraced (snd (load_config env s)) = untraced s
  /\ fst (load_config env s) <> Raised FileNotFoundError
  /\ fst (load_config env s) <> Raised JSONDecodeError
  /\ (forall c, fst (load_config env s) = Done (Some c)
                <-> json_load_r env = Returns c)
  /\ (fst (load_config env s) = Done None
      <-> json_load_r env = Raises FileNotFoundError
          \/ json_load_r env = Raises JSONDecodeError)
  /\ (fst (load_config env s) = Done None ->
      exists line,
        last_event (snd (load_config env s)) = Some line
        /\ is_error_log line = true)
  /\ (forall x, x <> FileNotFoundError -> x <> JSONDecodeError ->
                json_load_r env = Raises x ->
                fst (load_config env s) = Raised x).
Proof.
  unfold load_config. unfold_py.
  destruct (json_load_r env) as [c | x]; simpl.
  - repeat split; try discriminate; try congruence.
    intros [H | H]; discriminate H.
  - destruct x; simpl;
      (split; [reflexivity |]);
      (split; [discriminate |]);
      (split; [discriminate |]);
      (split; [intros c; split; discriminate |]);
      (split;
       [ split;
         [ intros H; first [discriminate H | auto]
         | intros [H | H]; first [discriminate H | reflexivity] ]
       | ]);
      (split;
       [ intros H; first [discriminate H |
                          eexists; split;
                          [apply last_event_add_event | reflexivity]]
       | intros y Hy1 Hy2 [= <-]; first [reflexivity | contradiction] ]).
Qed.

Lemma reload_after_load (t : Z) (env : poll_env) (s : state) :
  exists s2,
    untraced s2 = untraced (cleared t s)
    /\ reload t env s
       = match loaded env with
         | Done (Some c) =>
             if truthy c then apply_config c env (set_config (Some c) s2)
             else (Done tt, add_event reload_failed (set_config (Some c) s2))
         | Done None =>
             (Done tt, add_event reload_failed (set_config None s2))
         | Raised x => (Raised x, s2)
         end.
Proof.
  cbv [reload bind update emit].
  destruct (clear_schedule_spec t s) as [C1 C2].
  destruct (clear_schedule t s) as [[[] | x] s1]; [| discriminate C1].
  destruct (load_config_spec env s1) as [L1 L2].
  destruct (load_config env s1) as [r s2]. cbn [fst snd] in *.
  exists s2. split; [congruence |]. rewrite <- L1.
  destruct r as [[c |] | x]; try reflexivity.
  destruct (truthy c); reflexivity.
Qed.

Lemma apply_config_eq (fields : list (string * json)) (env : poll_env)
    (s : state) :
  git_configure_r env = Returns tt ->
  genai_configure_r env = Returns tt ->
  apply_config (JObj fields) env s
  = match items_of (lookup_or fields "projects" (JArr [])) with
    | Some items =>
        match sync_each items 0 env (configured fields s) with
        | (Done _, s4) => (Done tt, add_event reloaded s4)
        | (Raised x, s4) => (Raised x, s4)
        end
    | None => (Raised TypeError, configured fields s)
    end.
Proof.
  intros G1 G2.
  cbv [apply_config bind call emit update ret raise dict_get iterate logging].
  rewrite G1, G2.
  destruct (items_of (lookup_or fields "projects" (JArr []))) as [items |];
    [| reflexivity].
  unfold configured.
  destruct (sync_each items 0 env _) as [[[] | x] s4]; reflexivity.
Qed.

Lemma sync_each_untraced_fields (env : poll_env) (items : list json)
    (i : nat) (s : state) :
  config_last_modified (snd (sync_each items i env s))
  = config_last_modified s
  /\ config (snd (sync_each items i env s)) = config s
  /\ git_credentials (snd (sync_each items i env s)) = git_credentials s
  /\ genai_api_key (snd (sync_each items i env s)) = genai_api_key s.
Proof.
  destruct (sync_each_shape env items i s) as (k & _ & Hg & _).
  apply untraced_fields in Hg. simpl in Hg. tauto.
Qed.

(** X15: the poll never raises, whatever the file system, the parser, the
    collaborators and the setup of the projects do; neither does the
    start-up of [main]. *)
Theorem poll_and_startup_never_raise (env : poll_env) (s : state) :
  fst (check_config_changes env s) = Done tt
  /\ fst (main_startup env initial_state) = Done tt.
Proof.
  split; [apply check_config_changes_returns |].
  unfold main_startup, bind.
  pose proof (check_config_changes_returns env initial_state) as R.
  destruct (check_config_changes env initial_state) as [[[] | x] s'];
    [reflexivity | discriminate R].
Qed.

Lemma unreadable_mtime_is_logged (env : poll_env) (s : state) (x : exn) :
  getmtime_r env = Raises x ->
  check_config_changes env s
  = (Done tt, add_event (handler_line x) (polled s)).
Proof.
  intros H. unfold check_config_changes, polled.
  cbv [try_except bind call emit update read ret raise logging].
  rewrite H. destruct x; reflexivity.
Qed.

(** X16: when the modification time cannot be read (the file is gone, or any
    other error), the poll logs it and changes nothing: both job lists, the
    marker, the configuration and the credentials stay as they were. *)
Theorem unreadable_mtime_keeps_everything
    (env : poll_env) (s : state) (x : exn) :
  getmtime_r env = Raises x ->
  untraced (exec (check_config_changes env) s) = untraced s
  /\ trace (exec (check_config_changes env) s)
     = trace s ++ [GetMTime config_file; handler_line x].
Proof.
  intros H. unfold exec.
  rewrite (unreadable_mtime_is_logged env s x H). simpl.
  split; [reflexivity |]. now rewrite <- app_assoc.
Qed.

Lemma unreadable_mtime_keeps_everything_witness :
  untraced (exec (check_config_changes missing_file_env) running_state)
  = untraced running_state
  /\ trace (exec (check_config_changes missing_file_env) running_state)
     = trace running_state
       ++ [GetMTime config_file; handler_line FileNotFoundError].
Proof.
  apply (unreadable_mtime_keeps_everything missing_file_env running_state
           FileNotFoundError).
  reflexivity.
Defined.

(** X17: a modification time older than the recorded one (an older copy put
    back in place) is not a change: the poll reads the time and does
    nothing else. *)
Theorem older_mtime_is_ignored
    (env : poll_env) (s : state) (t t2 : Z) :
  config_last_modified s = Some t ->
  getmtime_r env = Returns t2 ->
  (t2 < t)%Z ->
  check_config_changes env s = (Done tt, polled s).
Proof.
  intros Hm Hg Hlt. apply (check_not_newer env s t2 Hg).
  rewrite Hm. simpl. apply Z.ltb_ge. lia.
Qed.

Lemma older_mtime_is_ignored_witness :
  check_config_changes (valid_env 5 empty_config ready_setup) running_state
  = (Done tt, polled running_state).
Proof.
  apply (older_mtime_is_ignored (valid_env 5 empty_config ready_setup)
           running_state 10 5); reflexivity.
Defined.

Lemma poll_after_load (env : poll_env) (s : state) (t : Z) :
  wf s ->
  detects env s = Some t ->
  exists s2,
    (jobs s2 = []
     /\ sched_jobs s2 = filter is_reload_job (sched_jobs s)
     /\ config_last_modified s2 = Some t
     /\ config s2 = config s
     /\ git_credentials s2 = git_credentials s
     /\ genai_api_key s2 = genai_api_key s
     /\ next_id s2 = next_id s)
    /\ check_config_changes env s
       = caught
           match loaded env with
           | Done (Some c) =>
               if truthy c then apply_config c env (set_config (Some c) s2)
               else (Done tt,
                     add_event reload_failed (set_config (Some c) s2))
           | Done None =>
               (Done tt, add_event reload_failed (set_config None s2))
           | Raised x => (Raised x, s2)
           end.
Proof.
  intros W D. rewrite (check_detected env s t D).
  destruct (reload_after_load t env (polled s)) as (s2 & U & ->).
  exists s2. split; [| reflexivity].
  apply untraced_fields in U. simpl in U.
  pose proof (cleared_sched_jobs t s W) as Hs. simpl in Hs.
  destruct U as (Hm & Hj & Hsched & Hn & Hc & Hg & Hk).
  rewrite Hsched, Hs. auto 10.
Qed.

(** X18: a file that parses to a falsy value (an empty object or list, zero,
    an empty text, [null], [false]) is handled like a file that does not
    parse: the project jobs are gone, the credentials are not touched, the
    failure line is logged. *)
Theorem falsy_config_is_a_failed_reload
    (env : poll_env) (s : state) (t : Z) (c : json) :
  wf s ->
  detects env s = Some t ->
  json_load_r env = Returns c ->
  truthy c = false ->
  jobs (exec (check_config_changes env) s) = []
  /\ sched_jobs (exec (check_config_changes env) s)
     = filter is_reload_job (sched_jobs s)
  /\ config_last_modified (exec (check_config_changes env) s) = Some t
  /\ git_credentials (exec (check_config_changes env) s) = git_credentials s
  /\ genai_api_key (exec (check_config_changes env) s) = genai_api_key s
  /\ last_event (exec (check_config_changes env) s) = Some reload_failed.
Proof.
  intros W D L T. unfold exec.
  destruct (poll_after_load env s t W D)
    as (s2 & (Hj & Hs & Hm & Hc & Hg & Hk & Hn) & ->).
  unfold loaded. rewrite L, T. simpl.
  repeat split; try assumption.
  apply last_event_add_event.
Qed.

Lemma falsy_config_is_a_failed_reload_witness :
  jobs (exec (check_config_changes
                (valid_env 20 empty_config ready_setup)) running_state)
  = []
  /\ sched_jobs (exec (check_config_changes
                         (valid_env 20 empty_config ready_setup))
                   running_state)
     = filter is_reload_job (sched_jobs running_state)
  /\ config_last_modified
       (exec (check_config_changes (valid_env 20 empty_config ready_setup))
          running_state)
     = Some 20%Z
  /\ git_credentials
       (exec (check_config_changes (valid_env 20 empty_config ready_setup))
          running_state)
     = git_credentials running_state
  /\ genai_api_key
       (exec (check_config_changes (valid_env 20 empty_config ready_setup))
          running_state)
     = genai_api_key running_state
  /\ last_event
       (exec (check_config_changes (valid_env 20 empty_config ready_setup))
          running_state)
     = Some reload_failed.
Proof.
  apply (falsy_config_is_a_failed_reload
           (valid_env 20 empty_config ready_setup) running_state 20
           empty_config (reachable_wf running_state reachable_running_state));
    reflexivity.
Defined.



(** X20: a file that parses to something truthy that is no object (a list of
    projects, a number, a text) fails at [config.get]: the AttributeError
    is logged, no project job is left, the credentials are not touched. *)
Theorem config_must_be_an_object
    (env : poll_env) (s : state) (t : Z) (c : json) :
  wf s ->
  detects env s = Some t ->
  json_load_r env = Returns c ->
  truthy c = true ->
  (forall fields, c <> JObj fields) ->
  jobs (exec (check_config_changes env) s) = []
  /\ sched_jobs (exec (check_config_changes env) s)
     = filter is_reload_job (sched_jobs s)
  /\ git_credentials (exec (check_config_changes env) s) = git_credentials s
  /\ genai_api_key (exec (check_config_changes env) s) = genai_api_key s
  /\ last_event (exec (check_config_changes env) s)
     = Some (handler_line AttributeError).
Proof.
  intros W D L T N. unfold exec.
  destruct (poll_after_load env s t W D)
    as (s2 & (Hj & Hs & Hm & Hc & Hg & Hk & Hn) & ->).
  unfold loaded. rewrite L, T.
  destruct c as [| b | n | q | u | l | fields];
    try (simpl; repeat split; try assumption; apply last_event_add_event).
  contradiction (N fields). reflexivity.
Qed.

Lemma config_must_be_an_object_witness :
  jobs (exec (check_config_changes (valid_env 20 list_config ready_setup))
          running_state) = []
  /\ sched_jobs (exec (check_config_changes
                         (valid_env 20 list_config ready_setup))
                   running_state)
     = filter is_reload_job (sched_jobs running_state)
  /\ git_credentials
       (exec (check_config_changes (valid_env 20 list_config ready_setup))
          running_state)
     = git_credentials running_state
  /\ genai_api_key
       (exec (check_config_changes (valid_env 20 list_config ready_setup))
          running_state)
     = genai_api_key running_state
  /\ last_event
       (exec (check_config_changes (valid_env 20 list_config ready_setup))
          running_state)
     = Some (handler_line AttributeError).
Proof.
  apply (config_must_be_an_object (valid_env 20 list_config ready_setup)
           running_state 20 list_config
           (reachable_wf running_state reachable_running_state));
    try reflexivity.
  intros fields H. discriminate H.
Defined.

(** X21: when the configuration is an object and both collaborators take their
    credentials, these are in place after the poll whatever becomes of the
    projects: they are handed over before the first project is set up, a
    key that is absent being handed over as [None]. *)
Theorem credentials_precede_registration
    (env : poll_env) (s : state) (t : Z) (fields : list (string * json)) :
  wf s ->
  detects env s = Some t ->
  json_load_r env = Returns (JObj fields) ->
  fields <> [] ->
  git_configure_r env = Returns tt ->
  genai_configure_r env = Returns tt ->
  git_credentials (exec (check_config_changes env) s)
  = Some (lookup_or fields "github_user" JNull,
          lookup_or fields "github_token" JNull)
  /\ genai_api_key (exec (check_config_changes env) s)
     = Some (lookup_or fields "google_api_key" JNull)
  /\ config (exec (check_config_changes env) s) = Some (JObj fields).
Proof.
  intros W D L T G1 G2. unfold exec.
  destruct (poll_after_load env s t W D) as (s2 & _ & ->).
  unfold loaded. rewrite L.
  assert (Ht : truthy (JObj fields) = true).
  { destruct fields; [contradiction T; reflexivity | reflexivity]. }
  rewrite Ht, (apply_config_eq fields env _ G1 G2).
  destruct (items_of (lookup_or fields "projects" (JArr []))) as [items |].
  - pose proof (sync_each_untraced_fields env items 0
                  (configured fields (set_config (Some (JObj fields)) s2)))
      as (_ & Hc & Hg & Hk).
    destruct (sync_each items 0 env _) as [[[] | x] s4];
      cbn [fst snd] in *; unfold caught; cbn [snd];
      cbn [config git_credentials genai_api_key add_event];
      rewrite Hc, Hg, Hk; repeat split; reflexivity.
  - repeat split; reflexivity.
Qed.

Lemma credentials_precede_registration_witness :
  git_credentials
    (exec (check_config_changes (valid_env 20 broken_config ready_setup))
       initial_state)
  = Some (lookup_or
            [("github_user", JStr "u"); ("github_token", JStr "k");
             ("google_api_key", JStr "g");
             ("projects", JArr [broken_project; demo_project])]
            "github_user" JNull,
          lookup_or
            [("github_user", JStr "u"); ("github_token", JStr "k");
             ("google_api_key", JStr "g");
             ("projects", JArr [broken_project; demo_project])]
            "github_token" JNull)
  /\ genai_api_key
       (exec (check_config_changes (valid_env 20 broken_config ready_setup))
          initial_state)
     = Some (lookup_or
               [("github_user", JStr "u"); ("github_token", JStr "k");
                ("google_api_key", JStr "g");
                ("projects", JArr [broken_project; demo_project])]
               "google_api_key" JNull)
  /\ config
       (exec (check_config_changes (valid_env 20 broken_config ready_setup))
          initial_state)
     = Some (JObj
               [("github_user", JStr "u"); ("github_token", JStr "k");
                ("google_api_key", JStr "g");
                ("projects", JArr [broken_project; demo_project])]).
Proof.
  apply (credentials_precede_registration
           (valid_env 20 broken_config ready_setup) initial_state 20
           [("github_user", JStr "u"); ("github_token", JStr "k");
            ("google_api_key", JStr "g");
            ("projects", JArr [broken_project; demo_project])]
           wf_initial_state);
    try reflexivity; discriminate.
Defined.

(** X22: a configuration object without a [projects] key reloads successfully
    with no project at all: the success line is logged and the scheduler
    keeps the reload job only. *)
Theorem missing_projects_key_means_no_project
    (env : poll_env) (s : state) (t : Z) (fields : list (string * json)) :
  wf s ->
  detects env s = Some t ->
  json_load_r env = Returns (JObj fields) ->
  fields <> [] ->
  assoc "projects" fields = None ->
  git_configure_r env = Returns tt ->
  genai_configure_r env = Returns tt ->
  jobs (exec (check_config_changes env) s) = []
  /\ sched_jobs (exec (check_config_changes env) s)
     = filter is_reload_job (sched_jobs s)
  /\ last_event (exec (check_config_changes env) s) = Some reloaded.
Proof.
  intros W D L T P G1 G2. unfold exec.
  destruct (poll_after_load env s t W D)
    as (s2 & (Hj & Hs & _) & ->).
  unfold loaded. rewrite L.
  assert (Ht : truthy (JObj fields) = true).
  { destruct fields; [contradiction T; reflexivity | reflexivity]. }
  rewrite Ht, (apply_config_eq fields env _ G1 G2).
  assert (Hl : lookup_or fields "projects" (JArr []) = JArr []).
  { unfold lookup_or. now rewrite P. }
  rewrite Hl. simpl.
  repeat split; try assumption. apply last_event_add_event.
Qed.

Lemma missing_projects_key_means_no_project_witness :
  jobs (exec (check_config_changes
                (valid_env 20 no_projects_config ready_setup))
          running_state) = []
  /\ sched_jobs (exec (check_config_changes
                         (valid_env 20 no_projects_config ready_setup))
                   running_state)
     = filter is_reload_job (sched_jobs running_state)
  /\ last_event (exec (check_config_changes
                         (valid_env 20 no_projects_config ready_setup))
                   running_state)
     = Some reloaded.
Proof.
  apply (missing_projects_key_means_no_project
           (valid_env 20 no_projects_config ready_setup) running_state 20
           [("github_user", JStr "u"); ("github_token", JStr "k")]
           (reachable_wf running_state reachable_running_state));
    try reflexivity; discriminate.
Defined.

(** X23: [projects] must be a list of objects.  A value that cannot be iterated
    (a number, [null], a boolean), or whose first item is no object (the
    keys of an object mapping names to projects, the characters of a text),
    ends the reload with a TypeError in the log and no project job; the
    credentials were handed over before. *)
Theorem projects_must_be_a_list_of_objects
    (env : poll_env) (s : state) (t : Z) (fields : list (string * json)) :
  wf s ->
  detects env s = Some t ->
  json_load_r env = Returns (JObj fields) ->
  fields <> [] ->
  git_configure_r env = Returns tt ->
  genai_configure_r env = Returns tt ->
  items_of (lookup_or fields "projects" (JArr [])) = None
  \/ (exists q rest,
        items_of (lookup_or fields "projects" (JArr [])) = Some (q :: rest)
        /\ forall f, q <> JObj f) ->
  jobs (exec (check_config_changes env) s) = []
  /\ sched_jobs (exec (check_config_changes env) s)
     = filter is_reload_job (sched_jobs s)
  /\ last_event (exec (check_config_changes env) s)
     = Some (handler_line TypeError).
Proof.
  intros W D L T G1 G2 H. unfold exec.
  destruct (poll_after_load env s t W D)
    as (s2 & (Hj & Hs & _) & ->).
  unfold loaded. rewrite L.
  assert (Ht : truthy (JObj fields) = true).
  { destruct fields; [contradiction T; reflexivity | reflexivity]. }
  rewrite Ht, (apply_config_eq fields env _ G1 G2).
  destruct H as [-> | (q & rest & -> & Hq)].
  - simpl. repeat split; try assumption. apply last_event_add_event.
  - assert (Hraise : forall s0,
               sync_each (q :: rest) 0 env s0 = (Raised TypeError, s0)).
    { intros s0. cbn [sync_each]. unfold bind.
      destruct q as [| | | | | | f]; try reflexivity.
      contradiction (Hq f). reflexivity. }
    rewrite Hraise. simpl.
    repeat split; try assumption. apply last_event_add_event.
Qed.

Lemma projects_must_be_a_list_of_objects_witness :
  jobs (exec (check_config_changes
                (valid_env 20 keyed_projects_config ready_setup))
          running_state) = []
  /\ sched_jobs (exec (check_config_changes
                         (valid_env 20 keyed_projects_config ready_setup))
                   running_state)
     = filter is_reload_job (sched_jobs running_state)
  /\ last_event (exec (check_config_changes
                         (valid_env 20 keyed_projects_config ready_setup))
                   running_state)
     = Some (handler_line TypeError).
Proof.
  apply (projects_must_be_a_list_of_objects
           (valid_env 20 keyed_projects_config ready_setup) running_state 20
           [("github_user", JStr "u");
            ("projects", JObj [("demo", demo_project)])]
           (reachable_wf running_state reachable_running_state));
    try reflexivity; try discriminate.
  right. exists (JStr "demo"), []. split; [reflexivity |].
  intros f H. discriminate H.
Defined.

(** X24: the handler for FileNotFoundError covers the whole poll, not just the
    reading of the file: when the setup of the first project raises it (its
    folder is gone), the poll reports a missing configuration file, although
    the configuration was loaded and is kept in [config]. *)
Theorem missing_folder_is_reported_as_missing_config
    (env : poll_env) (s : state) (t : Z) (fields : list (string * json))
    (p : json) (rest : list json) :
  wf s ->
  detects env s = Some t ->
  json_load_r env = Returns (JObj fields) ->
  fields <> [] ->
  git_configure_r env = Returns tt ->
  genai_configure_r env = Returns tt ->
  items_of (lookup_or fields "projects" (JArr [])) = Some (p :: rest) ->
  raises_with p (setup_r env 0) FileNotFoundError ->
  last_event (exec (check_config_changes env) s)
  = Some (Log ERROR "Archivo de configuración no encontrado: {config_file}"
              [AText config_file])
  /\ config (exec (check_config_changes env) s) = Some (JObj fields)
  /\ jobs (exec (check_config_changes env) s) = [].
Proof.
  intros W D L T G1 G2 Hitems Hraise. unfold exec.
  destruct (poll_after_load env s t W D)
    as (s2 & (Hj & _) & ->).
  unfold loaded. rewrite L.
  assert (Ht : truthy (JObj fields) = true).
  { destruct fields; [contradiction T; reflexivity | reflexivity]. }
  rewrite Ht, (apply_config_eq fields env _ G1 G2), Hitems.
  set (s3 := configured fields (set_config (Some (JObj fields)) s2)).
  assert (Hloop : exists s4,
             sync_each (p :: rest) 0 env s3 = (Raised FileNotFoundError, s4)
             /\ untraced s4 = untraced s3).
  { cbn [sync_each]. unfold bind.
    pose proof (Hraise s3) as Hr.
    pose proof (sync_project_cases p (setup_r env 0) s3) as C.
    destruct (sync_project p (setup_r env 0) s3) as [r s4].
    cbn [fst snd] in *. subst r. exists s4. split; [reflexivity |].
    destruct (registers p (setup_r env 0)); [| exact C].
    destruct C as [C _]. discriminate C. }
  destruct Hloop as (s4 & -> & U).
  apply untraced_fields in U. destruct U as (_ & Uj & _ & _ & Uc & _).
  simpl. split; [apply last_event_add_event |].
  split; [rewrite Uc; reflexivity | rewrite Uj; exact Hj].
Qed.

Lemma missing_folder_is_reported_as_missing_config_witness :
  last_event (exec (check_config_changes
                      (valid_env 20 demo_config no_folder_setup))
                running_state)
  = Some (Log ERROR "Archivo de configuración no encontrado: {config_file}"
              [AText config_file])
  /\ config (exec (check_config_changes
                     (valid_env 20 demo_config no_folder_setup))
               running_state)
     = Some (JObj [("github_user", JStr "u"); ("github_token", JStr "k");
                   ("google_api_key", JStr "g");
                   ("projects", JArr [demo_project])])
  /\ jobs (exec (check_config_changes
                   (valid_env 20 demo_config no_folder_setup))
             running_state)
     = [].
Proof.
  apply (missing_folder_is_reported_as_missing_config
           (valid_env 20 demo_config no_folder_setup) running_state 20
           [("github_user", JStr "u"); ("github_token", JStr "k");
            ("google_api_key", JStr "g"); ("projects", JArr [demo_project])]
           demo_project []
           (reachable_wf running_state reachable_running_state));
    try reflexivity; try discriminate.
  intros s0. reflexivity.
Defined.

(** ** [main] *)

(** X25: in every state the program reaches, the module's [jobs] list is the
    list of the scheduler's project jobs, in the scheduler's order; the
    scheduler's jobs are distinct objects; and exactly one of them is the
    reload job, which polls every minute. *)
Theorem schedule_invariant (s : state) :
  reachable s ->
  jobs s = filter is_project_job (sched_jobs s)
  /\ NoDup (map job_id (sched_jobs s))
  /\ exists n,
       filter is_reload_job (sched_jobs s)
       = [mkJob n (JInt 1) CheckConfigChanges].
Proof.
  intros R. destruct (reachable_wf s R) as [H1 _ H3].
  split; [exact H3 |]. split; [exact H1 |].
  now apply reachable_one_reload_job.
Qed.

Lemma schedule_invariant_witness :
  jobs running_state = filter is_project_job (sched_jobs running_state)
  /\ NoDup (map job_id (sched_jobs running_state))
  /\ exists n,
       filter is_reload_job (sched_jobs running_state)
       = [mkJob n (JInt 1) CheckConfigChanges].
Proof.
  apply (schedule_invariant running_state reachable_running_state).
Defined.

(** X26: [main] polls before it registers the reload job: after start-up the
    scheduler holds the project jobs of the first poll, then the reload
    job. *)
Theorem reload_job_is_registered_last (env : poll_env) :
  sched_jobs (exec (main_startup env) initial_state)
  = jobs (exec (main_startup env) initial_state)
    ++ [mkJob (List.length (jobs (exec (main_startup env) initial_state)))
              (JInt 1) CheckConfigChanges].
Proof.
  rewrite main_startup_eq. cbn zeta.
  set (s := exec (check_config_changes env) initial_state).
  cbn [sched_jobs jobs set_sched_jobs set_next_id].
  assert (H : sched_jobs s = jobs s /\ next_id s = List.length (jobs s)).
  { unfold s. destruct (detects env initial_state) as [t |] eqn:D.
    - destruct (poll_shape env initial_state t wf_initial_state D)
        as (new & _ & Hj & Hs & Hn & _).
      rewrite Hj, Hs, Hn. simpl. auto.
    - destruct (check_undetected env initial_state D) as [_ U].
      apply untraced_fields in U.
      destruct U as (_ & Uj & Us & Un & _).
      rewrite Uj, Us, Un. simpl. auto. }
  destruct H as [-> ->]. reflexivity.
Qed.


